(** * Assertion-driven backtracking for DSPy pipelines

    A shallow embedding of [dspy/primitives/assertions.py]: the [Assert]
    class and the four retry decorators [assert_transform],
    [assert_update_transform], [assert_latest_transform] and
    [assert_latest_feedback_transform], followed by the properties the
    specification states about them. *)

From Stdlib Require Import ZArith List String Bool Lia Floats.
From stdpp Require Import base decidable option list strings.
Import ListNotations.

Set Warnings "-inexact-float".

Local Open Scope string_scope.
Local Open Scope list_scope.

(** ** Python values, dictionaries and exceptions *)

(** The values that flow through the module: the result of an assertion
    function can be of any type, and only [PyBool] passes
    [isinstance(result, bool)]. *)
Inductive pyval : Type :=
| PyNone
| PyBool (b : bool)
| PyInt (z : Z)
| PyFloat (f : float)
| PyStr (s : string).

(** A Python [dict]: keys are unique and keep their insertion order, so a
    dictionary is the list of its items. *)
Section pydict.
Context {K V : Type} `{EqDecision K}.

(** [d.get(k)] *)
Fixpoint dict_get (k : K) (d : list (K * V)) : option V :=
  match d with
  | [] => None
  | (k', v) :: d' => if decide (k' = k) then Some v else dict_get k d'
  end.

(** [k in d] *)
Definition dict_in (k : K) (d : list (K * V)) : bool :=
  match dict_get k d with Some _ => true | None => false end.

(** [d[k] = v]: an existing key keeps its position, a new key goes last. *)
Fixpoint dict_set (k : K) (v : V) (d : list (K * V)) : list (K * V) :=
  match d with
  | [] => [(k, v)]
  | (k', v') :: d' =>
      if decide (k' = k) then (k, v) :: d' else (k', v') :: dict_set k v d'
  end.

(** [d.update(e)] *)
Definition dict_update (d e : list (K * V)) : list (K * V) :=
  fold_left (fun acc kv => dict_set kv.1 kv.2 acc) e d.

(** [d.pop(k, None)] and, when [k] is present, [del d[k]]. *)
Definition dict_pop (k : K) (d : list (K * V)) : list (K * V) :=
  filter (fun kv => kv.1 <> k) d.

(** [d.setdefault(k, v)] *)
Definition dict_setdefault (k : K) (v : V) (d : list (K * V)) : list (K * V) :=
  match dict_get k d with
  | Some _ => d
  | None => d ++ [(k, v)]
  end.

(** [d.keys()] *)
Definition dict_keys (d : list (K * V)) : list K := map fst d.
End pydict.

(** One record of [dsp.settings.trace]: [(stage, inputs, outputs)].  The
    stage is an object reference, modelled by its identity. *)
Record trace_entry : Type := TraceEntry {
  te_stage : nat;
  te_inputs : pyval;
  te_outputs : pyval
}.

Definition trace_t : Type := list trace_entry.

(** The exceptions that occur.  [DSPyAssertionError] carries [msg] and
    [state]; [ValueError] is what [Assert.__call__] raises for a result
    that is not a [bool]; [UnboundLocalError] is what Python raises when a
    local variable is read before any assignment; [OtherException] stands
    for any further exception the wrapped function may raise. *)
Inductive exn : Type :=
| DSPyAssertionError (msg : pyval) (state : trace_t)
| ValueError (text : string)
| UnboundLocalError (name : string)
| OtherException (tag : nat).

(** [isinstance(e, DSPyAssertionError)], the test of every [except] clause
    of the module. *)
Definition is_DSPyAssertionError (e : exn) : bool :=
  match e with DSPyAssertionError _ _ => true | _ => false end.

Inductive result (A : Type) : Type :=
| Ok (a : A)
| Raise (e : exn).
Arguments Ok {A} a.
Arguments Raise {A} e.

(** ** class Assert *)

Module Assert.

(** An assertion function is called with the positional and the keyword
    arguments; it runs with the ambient [dsp.settings.trace], which it may extend by
    invoking stages, and it returns a value or raises. *)
Definition assert_fun_t : Type :=
  list pyval -> list (string * pyval) -> trace_t -> result pyval * trace_t.

Record t : Type := Build {
  assert_fun : assert_fun_t;
  args : list pyval;
  msg : pyval;
  kwargs : list (string * pyval)
}.

(** [Assert.__call__]; the second component is [dsp.settings.trace] after
    the call. *)
Definition call (self : t) (trace : trace_t) : result bool * trace_t :=
  let '(r, trace) := assert_fun self (args self) (kwargs self) trace in
  match r with
  | Raise e => (Raise e, trace)
  | Ok (PyBool true) => (Ok true, trace)
  | Ok (PyBool false) => (Raise (DSPyAssertionError (msg self) trace), trace)
  | Ok _ =>
      (Raise (ValueError "Assertion function should always return [bool]"),
       trace)
  end.

(** [Assert.__init__], for a construction [Assert(assert_fun, ...)] with
    positional arguments [args] and keyword arguments [kwargs]. *)
Definition init (assert_fun : assert_fun_t) (args : list pyval)
    (kwargs : list (string * pyval)) (trace : trace_t)
  : result t * trace_t :=
  let '(msg, kwargs) :=
    match dict_get "msg" kwargs with
    | Some m => (m, dict_pop "msg" kwargs)
    | None => (PyStr "", kwargs)
    end in
  let self := Build assert_fun args msg kwargs in
  match call self trace with
  | (Ok _, trace) => (Ok self, trace)
  | (Raise e, trace) => (Raise e, trace)
  end.

End Assert.

(** ** Stages, contracts and the ambient settings *)

(** The classes of field descriptor the module distinguishes:
    [dspy.InputField], [dspy.OutputField] and [dsp.Type]. *)
Inductive field_class : Type :=
| InputField
| OutputField
| DspType.

Record field : Type := Field {
  field_cls : field_class;
  prefix : string;
  desc : string;
  format : option nat
}.

(** [isinstance(v, dspy.InputField)] *)
Definition is_InputField (v : field) : bool :=
  match field_cls v with InputField => true | _ => false end.

(** [isinstance(v, (dsp.Type, dspy.OutputField))] *)
Definition is_Type_or_OutputField (v : field) : bool :=
  match field_cls v with DspType | OutputField => true | InputField => false end.

(** Modelled from the spec: [dsp.Template], the contract of a stage, which
    is not part of this file.  A template is built as
    [dsp.Template(instructions, **kwargs)] and is determined by its
    instructions and its ordered mapping of named fields. *)
Record Template : Type := MkTemplate {
  instructions : string;
  kwargs : list (string * field)
}.

(** A callable installed as the [forward] entry point of a stage: either a
    callable that exists before the run (named by its code), or the closure
    [new_forward] that [_wrap_forward_with_set_fields] creates, which
    captures [default_args] and [original_forward]. *)
Inductive callable : Type :=
| Method (code : nat)
| new_forward (default_args : list (string * pyval)) (original_forward : callable).

(** Calling an entry point with keyword arguments.  [base] gives the
    behaviour of the callables that exist before the run. *)
Fixpoint call_forward {R : Type} (base : nat -> list (string * pyval) -> R)
    (f : callable) (kw : list (string * pyval)) : R :=
  match f with
  | Method code => base code kw
  | new_forward default_args original_forward =>
      let kw :=
        fold_left (fun kw av => dict_setdefault av.1 av.2 kw) default_args kw in
      call_forward base original_forward kw
  end.

(** A stage (a predictor): the three attributes the module reads and
    writes. *)
Record Predict : Type := MkPredict {
  config : list (string * pyval);
  extended_signature : Template;
  forward : callable
}.

Definition set_config (c : list (string * pyval)) (p : Predict) : Predict :=
  MkPredict c (extended_signature p) (forward p).
Definition set_extended_signature (s : Template) (p : Predict) : Predict :=
  MkPredict (config p) s (forward p).
Definition set_forward (f : callable) (p : Predict) : Predict :=
  MkPredict (config p) (extended_signature p) f.

(** Stages are shared objects: the heap maps the identity of a stage to
    its current attributes, and every reference to a stage sees the same
    attributes. *)
Definition heap : Type := nat -> Predict.

Definition heap_update (p : nat) (f : Predict -> Predict) (h : heap) : heap :=
  fun q => if decide (q = p) then f (h q) else h q.

(** Modelled from the spec: [Predict.get_config] and
    [Predict.update_config], which are not part of this file; the
    configuration is a mapping of named parameters, read by the getter and
    written by a read-modify-write setter. *)
Definition get_config (p : nat) (h : heap) : list (string * pyval) :=
  config (h p).
Definition update_config (p : nat) (new : list (string * pyval)) (h : heap) : heap :=
  heap_update p (fun s => set_config (dict_update (config s) new) s) h.

(** What the decorators print. *)
Inductive line : Type :=
| PrintMsg (msg : pyval)
| PrintUnreachable
| PrintRewinding (p : nat)
| PrintPrevTemp (p : nat) (t : option pyval)
| PrintNewTemp (p : nat) (t : option pyval)
| PrintAssertionError (msg : pyval)
| PrintReverting (p : nat).

(** The state the decorators run in: the stages, [dsp.settings.lm] (the
    keyword arguments of the language model), [dsp.settings.trace], the
    lines printed so far, and the number of times the wrapped function has
    been invoked. *)
Record world : Type := MkWorld {
  stages : heap;
  lm : list (string * pyval);
  trace : trace_t;
  stdout : list line;
  calls : nat
}.

Definition set_stages (h : heap) (w : world) : world :=
  MkWorld h (lm w) (trace w) (stdout w) (calls w).
Definition set_lm (l : list (string * pyval)) (w : world) : world :=
  MkWorld (stages w) l (trace w) (stdout w) (calls w).
Definition print (l : line) (w : world) : world :=
  MkWorld (stages w) (lm w) (trace w) (stdout w ++ [l]) (calls w).

(** The wrapped function with its arguments.  It reads the stages, the
    settings and whatever state of its own it keeps between invocations
    (which the number of earlier invocations stands for); it returns or
    raises, and the execution layer leaves a trace behind.  The attributes
    of the stages are written by the decorators only. *)
Definition func_t : Type := world -> result pyval * trace_t.

(** One invocation of the wrapped function with the arguments of [inner]. *)
Definition invoke (func : func_t) (w : world) : result pyval * world :=
  let '(r, tr) := func w in
  (r, MkWorld (stages w) (lm w) tr (stdout w) (S (calls w))).

(** [range(n)] *)
Definition range (n : Z) : list nat := seq 0 (Z.to_nat n).

(** The conversion of a loop index to [float] in [0.7 + 0.001 * i]. *)
Definition float_of_index (i : nat) : float :=
  PrimFloat.of_uint63 (Uint63.of_Z (Z.of_nat i)).

(** [dsp.settings.trace[-1][0]] when the trace is true (not empty). *)
Definition last_stage (tr : trace_t) : option nat :=
  te_stage <$> last tr.

(** ** assert_transform *)

Fixpoint assert_transform_loop (func : func_t) (idx : list nat) (w : world)
  : result pyval * world :=
  match idx with
  | [] => (Ok PyNone, w)
  | _ :: idx =>
      match invoke func w with
      | (Raise (DSPyAssertionError msg _), w) =>
          let w := print (PrintMsg msg) w in
          let w :=
            match trace w with
            | _ :: _ => w
            | [] => print PrintUnreachable w
            end in
          assert_transform_loop func idx w
      | (r, w) => (r, w)
      end
  end.

Definition assert_transform (max_backtracks : Z) (func : func_t) (w : world)
  : result pyval * world :=
  assert_transform_loop func (range (max_backtracks + 1)) w.

(** ** assert_update_transform *)

(** Modelled from the spec: the [copy] method of the language model, called
    with keyword arguments, which is not part of this file: a copy of the language model whose named parameters are
    replaced. *)
Definition lm_copy (l new : list (string * pyval)) : list (string * pyval) :=
  dict_update l new.

(** The statements before [try] in one iteration, which decide the
    settings the wrapped function runs in.  The local variable
    [backtrack_to] of this decorator has no assignment before the loop:
    [None] stands for the unbound variable, [Some p] for the variable bound
    to [id] of stage [p]. *)
Definition update_settings (i : nat) (backtrack_to : option nat) (w : world)
  : result world :=
  let lm0 := lm w in
  (* i > 0 and backtrack_to is not None *)
  let cond :=
    if (0 <? i)%nat then
      match backtrack_to with
      | Some _ => Ok true
      | None => Raise (UnboundLocalError "backtrack_to")
      end
    else Ok false in
  match cond with
  | Raise e => Raise e
  | Ok c =>
      let lm1 :=
        if c then
          lm_copy lm0
            [("temperature", PyFloat (0.71 + 0.002 * float_of_index i)%float)]
        else lm0 in
      (* new_settings = dict(lm=lm) if i > 0 else {} *)
      Ok (if (0 <? i)%nat then set_lm lm1 w else w)
  end.

(** Modelled from the spec: [dsp.settings.context], which is not part of
    this file: the settings given are in force inside the block and the
    former settings are in force again when the block is left, also when
    it is left by an exception. *)
Fixpoint assert_update_transform_loop (func : func_t) (idx : list nat)
    (backtrack_to : option nat) (w : world) : result pyval * world :=
  match idx with
  | [] => (Ok PyNone, w)
  | i :: idx =>
      match update_settings i backtrack_to w with
      | Raise e => (Raise e, w)
      | Ok w1 =>
          let '(r, w1) := invoke func w1 in
          let w := set_lm (lm w) w1 in
          match r with
          | Raise (DSPyAssertionError msg _) =>
              let w := print (PrintMsg msg) w in
              match last_stage (trace w) with
              | Some p => assert_update_transform_loop func idx (Some p) w
              | None =>
                  let w := print PrintUnreachable w in
                  assert_update_transform_loop func idx backtrack_to w
              end
          | _ => (r, w)
          end
      end
  end.

Definition assert_update_transform (max_backtracks : Z) (func : func_t)
    (w : world) : result pyval * world :=
  assert_update_transform_loop func (range (max_backtracks + 1)) None w.

(** ** assert_latest_transform *)

(** The statements before [try] in one iteration: when [i > 0] and
    [backtrack_to is not None], the temperature of the stage
    [backtrack_to] is overwritten. *)
Definition latest_rewind (i : nat) (backtrack_to : option nat) (w : world)
  : world :=
  match backtrack_to with
  | Some p =>
      if (0 <? i)%nat then
        let w := print (PrintRewinding p) w in
        let w :=
          print (PrintPrevTemp p (dict_get "temperature" (get_config p (stages w))))
            w in
        let w :=
          set_stages
            (update_config p
               [("temperature", PyFloat (0.7 + 0.001 * float_of_index i)%float)]
               (stages w))
            w in
        print (PrintNewTemp p (dict_get "temperature" (get_config p (stages w)))) w
      else w
  | None => w
  end.

(** The [except DSPyAssertionError] clause of policies 3 and 4 decides the
    next value of [backtrack_to] from [dsp.settings.trace]. *)
Definition blame (backtrack_to : option nat) (w : world) : option nat * world :=
  match last_stage (trace w) with
  | Some p => (Some p, w)
  | None => (backtrack_to, print PrintUnreachable w)
  end.

Fixpoint assert_latest_transform_loop (func : func_t) (idx : list nat)
    (backtrack_to : option nat) (w : world) : result pyval * world :=
  match idx with
  | [] => (Ok PyNone, w)
  | i :: idx =>
      let w := latest_rewind i backtrack_to w in
      match invoke func w with
      | (Raise (DSPyAssertionError msg _), w) =>
          let w := print (PrintMsg msg) w in
          let '(backtrack_to, w) := blame backtrack_to w in
          assert_latest_transform_loop func idx backtrack_to w
      | (r, w) => (r, w)
      end
  end.

Definition assert_latest_transform (max_backtracks : Z) (func : func_t)
    (w : world) : result pyval * world :=
  assert_latest_transform_loop func (range (max_backtracks + 1)) None w.

(** ** assert_latest_feedback_transform *)

(** [_extend_predictor_signature(predictor, **kwargs)]: the new mapping
    takes the input fields of the old one, then [kwargs], then the output
    and [dsp.Type] fields of the old one. *)
Definition _extend_predictor_signature (predictor : nat)
    (new_fields : list (string * field)) (h : heap) : heap :=
  let old_signature := extended_signature (h predictor) in
  let new_signature_kwargs :=
    List.filter (fun kv => is_InputField kv.2) (kwargs old_signature) in
  let new_signature_kwargs := dict_update new_signature_kwargs new_fields in
  let new_signature_kwargs :=
    dict_update new_signature_kwargs
      (List.filter (fun kv => is_Type_or_OutputField kv.2) (kwargs old_signature)) in
  let new_signature :=
    MkTemplate (instructions old_signature) new_signature_kwargs in
  heap_update predictor (set_extended_signature new_signature) h.

(** [_revert_predictor_signature(predictor, *args)] *)
Definition _revert_predictor_signature (predictor : nat) (names : list string)
    (h : heap) : heap :=
  let old_signature_kwargs :=
    fold_left (fun d key => dict_pop key d) names
      (kwargs (extended_signature (h predictor))) in
  let new_signature :=
    MkTemplate (instructions (extended_signature (h predictor)))
      old_signature_kwargs in
  heap_update predictor (set_extended_signature new_signature) h.

(** [_wrap_forward_with_set_fields(predictor, default_args)] *)
Definition _wrap_forward_with_set_fields (predictor : nat)
    (default_args : list (string * pyval)) (h : heap) : heap :=
  let original_forward := forward (h predictor) in
  heap_update predictor (set_forward (new_forward default_args original_forward)) h.

(** The feedback field created before each retry. *)
Definition feedback : field :=
  Field InputField "Instruction:" "Some instructions you must satisfy" None.

(** The local variables of [inner] that live across iterations. *)
Record locals : Type := MkLocals {
  backtrack_to : option nat;
  error_msg : pyval;
  extended_predictors_to_original_forward : list (nat * callable)
}.

(** The statements before [try] in one iteration. *)
Definition feedback_rewind (i : nat) (l : locals) (w : world) : locals * world :=
  match backtrack_to l with
  | Some p =>
      if (0 <? i)%nat then
        let w := print (PrintRewinding p) w in
        let saved :=
          dict_set p (forward (stages w p))
            (extended_predictors_to_original_forward l) in
        let w :=
          set_stages
            (_extend_predictor_signature p [("feedback", feedback)] (stages w)) w in
        let w :=
          set_stages
            (_wrap_forward_with_set_fields p [("feedback", error_msg l)] (stages w))
            w in
        (MkLocals (backtrack_to l) (error_msg l) saved, w)
      else (l, w)
  | None => (l, w)
  end.

(** The loop of [inner]: it is left by [break] with the result of the
    wrapped function, by exhaustion with [result = None], or by an
    exception that is not a [DSPyAssertionError], which leaves [inner] as
    well. *)
Fixpoint assert_latest_feedback_transform_loop (func : func_t) (idx : list nat)
    (l : locals) (w : world) : result pyval * locals * world :=
  match idx with
  | [] => (Ok PyNone, l, w)
  | i :: idx =>
      let '(l, w) := feedback_rewind i l w in
      match invoke func w with
      | (Raise (DSPyAssertionError msg _), w) =>
          let w := print (PrintAssertionError msg) w in
          let '(bt, w) := blame (backtrack_to l) w in
          let l := MkLocals bt msg (extended_predictors_to_original_forward l) in
          assert_latest_feedback_transform_loop func idx l w
      | (r, w) => (r, l, w)
      end
  end.

(** The statements after the loop: every recorded stage is reverted. *)
Definition revert_one (w : world) (item : nat * callable) : world :=
  let '(predictor, original_forward) := item in
  let w := print (PrintReverting predictor) w in
  let w :=
    set_stages (_revert_predictor_signature predictor ["feedback"] (stages w)) w in
  set_stages (heap_update predictor (set_forward original_forward) (stages w)) w.

Definition revert_extended (saved : list (nat * callable)) (w : world) : world :=
  match saved with
  | [] => w
  | _ :: _ => fold_left revert_one saved w
  end.

Definition assert_latest_feedback_transform (max_backtracks : Z)
    (func : func_t) (w : world) : result pyval * world :=
  let l := MkLocals None PyNone [] in
  match
    assert_latest_feedback_transform_loop func (range (max_backtracks + 1)) l w
  with
  | (Raise e, _, w) => (Raise e, w)
  | (Ok result, l, w) =>
      (Ok result, revert_extended (extended_predictors_to_original_forward l) w)
  end.

(** ** Auxiliary definitions

    Abbreviations used by the statements below, and the concrete stages and
    wrapped functions on which they are tried. *)

(** Removing several names, as the loop of [_revert_predictor_signature]
    does. *)
Definition dict_pops (names : list string) (d : list (string * field))
  : list (string * field) :=
  fold_left (fun d key => dict_pop key d) names d.

(** An assertion function that answers with its first keyword argument. *)
Definition first_kwarg : Assert.assert_fun_t :=
  fun _ kw tr =>
    (Ok (match kw with (_, v) :: _ => v | [] => PyNone end),
     tr ++ [TraceEntry 7 PyNone PyNone]).

(** A heap in which every stage has the contract
    [question -> rationale, answer] and its own entry point. *)
Definition qa_signature : Template :=
  MkTemplate "Answer the question."
    [("question", Field InputField "Question:" "the question" None);
     ("rationale", Field DspType "Reasoning:" "think step by step" None);
     ("answer", Field OutputField "Answer:" "the answer" None)].

Definition qa_heap : heap :=
  fun p => MkPredict [] qa_signature (Method p).

(** A wrapped function that runs one assertion whose function returns an
    [int]: its first keyword argument. *)
Definition non_bool_pipeline : func_t :=
  fun w =>
    match Assert.init first_kwarg [] [("n", PyInt 3); ("msg", PyStr "never")] (trace w) with
    | (Ok _, tr) => (Ok (PyStr "done"), tr)
    | (Raise e, tr) => (Raise e, tr)
    end.

Definition qa_world : world := MkWorld qa_heap [] [] [] 0.

(** The temperature that [assert_latest_transform] writes before attempt
    [i]. *)
Definition latest_temperature (i : nat) : pyval :=
  PyFloat (0.7 + 0.001 * float_of_index i)%float.

(** A wrapped function whose assertion fails twice, the first time after
    stage 0 ran and the second time with an empty trace, and which then
    returns the temperature stage 0 is configured with. *)
Definition flaky_latest : func_t :=
  fun w =>
    match calls w with
    | 0 => (Raise (DSPyAssertionError (PyStr "first") [TraceEntry 0 PyNone PyNone]),
            [TraceEntry 0 PyNone PyNone])
    | 1 => (Raise (DSPyAssertionError (PyStr "second") []), [])
    | _ => (Ok (default PyNone (dict_get "temperature" (config (stages w 0)))), [])
    end.

(** [v == t] for two temperatures. *)
Definition has_temperature (t v : pyval) : bool :=
  match t, v with
  | PyFloat a, PyFloat b => PrimFloat.eqb a b
  | _, _ => false
  end.

(** The field mapping that [_extend_predictor_signature] builds from the
    old one. *)
Definition extend_kwargs (new_fields old : list (string * field))
  : list (string * field) :=
  dict_update
    (dict_update (List.filter (fun kv => is_InputField kv.2) old) new_fields)
    (List.filter (fun kv => is_Type_or_OutputField kv.2) old).

(** The state in which the loop of [assert_latest_feedback_transform] goes
    on after the [except] clause handled a failure with message [msg] that
    left the trace [tr]. *)
Definition after_failure (msg : pyval) (tr : trace_t) (l : locals) (w : world)
  : locals * world :=
  let w := MkWorld (stages w) (lm w) tr (stdout w) (S (calls w)) in
  let w := print (PrintAssertionError msg) w in
  let '(bt, w) := blame (backtrack_to l) w in
  (MkLocals bt msg (extended_predictors_to_original_forward l), w).

(** The feedback that the entry point of stage [p] passes on when it is
    called without keyword arguments. *)
Definition feedback_passed (p : nat) (w : world) : pyval :=
  call_forward (fun _ kw => default PyNone (dict_get "feedback" kw))
    (forward (stages w p)) [].

(** Scenario A: a wrapped function whose assertion fails on the first two
    attempts, both times after stage 0 ran last, and which then returns the
    feedback that reaches stage 0. *)
Definition flaky_feedback : func_t :=
  fun w =>
    match calls w with
    | 0 => (Raise (DSPyAssertionError (PyStr "too short") [TraceEntry 0 PyNone PyNone]),
            [TraceEntry 0 PyNone PyNone])
    | 1 => (Raise (DSPyAssertionError (PyStr "still too short")
                     [TraceEntry 1 PyNone PyNone; TraceEntry 0 PyNone PyNone]),
            [TraceEntry 1 PyNone PyNone; TraceEntry 0 PyNone PyNone])
    | _ => (Ok (feedback_passed 0 w), [TraceEntry 0 PyNone PyNone])
    end.



(** A wrapped function whose assertion fails once after stage 0 ran, and
    which then tells whether the contract of stage 0 has an input field
    named ["feedback"]. *)
Definition critic_pipeline : func_t :=
  fun w =>
    match calls w with
    | 0 => (Raise (DSPyAssertionError (PyStr "too vague") [TraceEntry 0 PyNone PyNone]),
            [TraceEntry 0 PyNone PyNone])
    | _ =>
        (Ok (PyBool
               match dict_get "feedback" (kwargs (extended_signature (stages w 0))) with
               | Some v => is_InputField v
               | None => false
               end),
         [TraceEntry 0 PyNone PyNone])
    end.

(** A wrapped function whose assertion fails once after stage 0 ran and
    which raises another exception on the second attempt. *)
Definition crashing_pipeline : func_t :=
  fun w =>
    match calls w with
    | 0 => (Raise (DSPyAssertionError (PyStr "too short") [TraceEntry 0 PyNone PyNone]),
            [TraceEntry 0 PyNone PyNone])
    | _ => (Raise (OtherException 1), [TraceEntry 0 PyNone PyNone])
    end.

(** A wrapped function whose assertion fails on every attempt, with an
    empty trace. *)
Definition failing_without_trace : func_t :=
  fun _ => (Raise (DSPyAssertionError (PyStr "wrong") []), []).

(** A stage is mutated when a "rewinding to" line is printed for it, and
    restored when a "reverting predictor" line is printed for it. *)
Definition is_rewinding (p : nat) (x : line) : bool :=
  match x with PrintRewinding q => bool_decide (q = p) | _ => false end.

Definition is_reverting (p : nat) (x : line) : bool :=
  match x with PrintReverting q => bool_decide (q = p) | _ => false end.

Definition rewinds (p : nat) (out : list line) : nat :=
  length (List.filter (is_rewinding p) out).

Definition reverts (p : nat) (out : list line) : nat :=
  length (List.filter (is_reverting p) out).

(** What the restoration does to one recorded stage. *)
Definition reverted (original_forward : callable) (s : Predict) : Predict :=
  MkPredict (config s)
    (MkTemplate (instructions (extended_signature s))
       (dict_pop "feedback" (kwargs (extended_signature s))))
    original_forward.

(** The entry point is a wrapper made by [_wrap_forward_with_set_fields]
    for the feedback field. *)
Definition feedback_wrapper (f : callable) : Prop :=
  exists m f0, f = new_forward [("feedback", m)] f0.

(** The invariant of the loop of [assert_latest_feedback_transform]: [h0]
    are the stages before the run, [out] the lines printed so far, [saved]
    the recorded entry points and [h] the stages now. *)
Record feedback_inv (h0 : heap) (out : list line)
    (saved : list (nat * callable)) (h : heap) : Prop := MkFeedbackInv {
  inv_nodup : List.NoDup (dict_keys saved);
  inv_reverts : forall p, reverts p out = 0;
  inv_untouched : forall p,
    rewinds p out = 0 -> h p = h0 p /\ dict_get p saved = None;
  inv_touched : forall p,
    (0 < rewinds p out)%nat ->
    (exists f, dict_get p saved = Some f) /\
    config (h p) = config (h0 p) /\
    instructions (extended_signature (h p))
      = instructions (extended_signature (h0 p)) /\
    feedback_wrapper (forward (h p)) /\
    (exists v, dict_get "feedback" (kwargs (extended_signature (h p))) = Some v);
  inv_once : forall p,
    rewinds p out = 1 ->
    dict_get p saved = Some (forward (h0 p)) /\
    kwargs (extended_signature (h p))
      = extend_kwargs [("feedback", feedback)] (kwargs (extended_signature (h0 p)))
}.

(** A contract in which the restoration undoes the extension: its names are
    distinct, none is ["feedback"], and its input fields stand before its
    output and [dsp.Type] fields. *)
Definition canonical_contract (t : Template) : Prop :=
  List.NoDup (dict_keys (kwargs t)) /\
  dict_get "feedback" (kwargs t) = None /\
  kwargs t =
    List.filter (fun kv => is_InputField kv.2) (kwargs t)
      ++ List.filter (fun kv => is_Type_or_OutputField kv.2) (kwargs t).


(** The wrapped function fails its assertion whenever it is invoked, and
    the trace is not empty at that moment. *)
Definition always_fails_with_trace (func : func_t) : Prop :=
  forall w, exists msg st e tr,
    func w = (Raise (DSPyAssertionError msg st), e :: tr).

(** The keyword arguments that [new_forward] passes on: every default is
    applied with [setdefault], in the order of [default_args]. *)
Definition apply_defaults (default_args kw : list (string * pyval))
  : list (string * pyval) :=
  fold_left (fun kw av => dict_setdefault av.1 av.2 kw) default_args kw.

(** The entry point [f] under one feedback wrapper for each message, the
    newest first. *)
Fixpoint wrap_all (msgs : list pyval) (f : callable) : callable :=
  match msgs with
  | [] => f
  | m :: msgs => new_forward [("feedback", m)] (wrap_all msgs f)
  end.

(** The number of closures an entry point is made of. *)
Fixpoint callable_size (f : callable) : nat :=
  match f with
  | Method _ => 1
  | new_forward _ original_forward => S (callable_size original_forward)
  end.

(** A language model configured with a temperature and a token limit. *)
Definition warm_world : world :=
  MkWorld qa_heap [("temperature", PyFloat 0.5%float); ("max_tokens", PyInt 150)]
    [] [] 0.

(** A wrapped function that returns at once. *)
Definition succeeding_pipeline : func_t :=
  fun _ => (Ok (PyStr "answer"), [TraceEntry 0 PyNone PyNone]).

(** A wrapped function whose assertion fails on every attempt after stage 0
    ran. *)
Definition failing_with_trace : func_t :=
  fun _ => (Raise (DSPyAssertionError (PyStr "wrong") [TraceEntry 0 PyNone PyNone]),
            [TraceEntry 0 PyNone PyNone]).


(** The entry points during a run of [assert_latest_feedback_transform]:
    [h0] are the stages before the run, [out] the lines printed so far,
    [saved] the recorded entry points and [h] the stages now.  The entry
    point of a stage is the one before the run under one wrapper for each
    mutation, and the recorded entry point has one wrapper less. *)
Definition entry_inv (h0 : heap) (out : list line)
    (saved : list (nat * callable)) (h : heap) : Prop :=
  forall p, exists msgs,
    length msgs = rewinds p out /\
    forward (h p) = wrap_all msgs (forward (h0 p)) /\
    dict_get p saved =
      match msgs with
      | [] => None
      | _ :: msgs => Some (wrap_all msgs (forward (h0 p)))
      end.

(** The stage that a run of [assert_latest_transform] holds in
    [backtrack_to] after failures that left the traces [hist], the oldest
    first: the stage of the last entry of the most recent trace that is not
    empty. *)
Definition blamed_by (hist : list trace_t) : option nat :=
  fold_left
    (fun bt tr => match last_stage tr with Some p => Some p | None => bt end)
    hist None.

(** The state of [inner] of [assert_latest_transform] at the head of the
    loop before attempt [k], with the traces the failed attempts
    [0 .. k-1] left, when each of these attempts failed its assertion; and
    [None] when the run ended before attempt [k]. *)
Fixpoint latest_head (func : func_t) (k : nat) (w : world)
  : option (option nat * world * list trace_t) :=
  match k with
  | 0 => Some (None, w, [])
  | S k =>
      match latest_head func k w with
      | Some (backtrack_to, w, hist) =>
          match invoke func (latest_rewind k backtrack_to w) with
          | (Raise (DSPyAssertionError msg _), w) =>
              let tr := trace w in
              let w := print (PrintMsg msg) w in
              let '(backtrack_to, w) := blame backtrack_to w in
              Some (backtrack_to, w, hist ++ [tr])
          | _ => None
          end
      | None => None
      end
  end.

(** * Properties *)

(** ** Dictionaries *)

Section pydict_facts.
Context {K V : Type} `{EqDecision K}.
Implicit Types (d : list (K * V)) (k : K) (v : V).

Lemma dict_get_pop_eq k d : dict_get k (dict_pop k d) = None.
Proof.
  induction d as [|[k' v'] d IH]; [reflexivity|].
  unfold dict_pop in *. rewrite filter_cons. simpl.
  destruct (decide (k' <> k)) as [Hne|Heq]; [|exact IH].
  simpl. destruct (decide (k' = k)); [contradiction|exact IH].
Qed.

Lemma dict_get_pop_ne k k' d : k' <> k -> dict_get k' (dict_pop k d) = dict_get k' d.
Proof.
  intros Hne. induction d as [|[k0 v0] d IH]; [reflexivity|].
  unfold dict_pop in *. rewrite filter_cons. simpl.
  destruct (decide (k0 <> k)) as [Hk|Hk]; simpl.
  - destruct (decide (k0 = k')); [reflexivity|exact IH].
  - apply dec_stable in Hk. subst k0.
    destruct (decide (k = k')); [congruence|exact IH].
Qed.

Lemma dict_pop_absent k d : dict_get k d = None -> dict_pop k d = d.
Proof.
  induction d as [|[k' v'] d IH]; [reflexivity|].
  unfold dict_pop in *. simpl. intros Hget. rewrite filter_cons. simpl.
  destruct (decide (k' = k)) as [->|Hne]; [discriminate|].
  destruct (decide (k' <> k)); [|contradiction].
  f_equal. exact (IH Hget).
Qed.

Lemma dict_pop_idemp k d : dict_pop k (dict_pop k d) = dict_pop k d.
Proof. apply dict_pop_absent, dict_get_pop_eq. Qed.

Lemma dict_pop_comm k k' d : dict_pop k (dict_pop k' d) = dict_pop k' (dict_pop k d).
Proof.
  unfold dict_pop. induction d as [|kv d IH]; [reflexivity|].
  rewrite !filter_cons.
  destruct (decide (kv.1 <> k')), (decide (kv.1 <> k));
    rewrite ?filter_cons; repeat case_decide; try contradiction; congruence.
Qed.

Lemma dict_pop_sublist k d : sublist (dict_pop k d) d.
Proof. apply sublist_filter. Qed.
End pydict_facts.

Lemma dict_get_pop_None (k k' : string) (d : list (string * field)) :
  dict_get k' d = None -> dict_get k' (dict_pop k d) = None.
Proof.
  intros Hnone. destruct (decide (k' = k)) as [->|Hne].
  - apply dict_get_pop_eq.
  - rewrite dict_get_pop_ne; assumption.
Qed.

Lemma dict_pops_absent names d :
  (forall n, In n names -> dict_get n d = None) -> dict_pops names d = d.
Proof.
  revert d. induction names as [|n names IH]; intros d Habs; [reflexivity|].
  unfold dict_pops in *. simpl.
  rewrite (dict_pop_absent n d) by (apply Habs; left; reflexivity).
  apply IH. intros n' Hin. apply Habs. right. exact Hin.
Qed.

Lemma dict_get_pops_None names d k :
  dict_get k d = None -> dict_get k (dict_pops names d) = None.
Proof.
  revert d. induction names as [|n names IH]; intros d Hnone; [exact Hnone|].
  unfold dict_pops in *. simpl. apply IH, dict_get_pop_None, Hnone.
Qed.

Lemma dict_get_pops_In names d k :
  In k names -> dict_get k (dict_pops names d) = None.
Proof.
  revert d. induction names as [|n names IH]; intros d Hin; [destruct Hin|].
  unfold dict_pops in *. simpl. destruct Hin as [->|Hin].
  - apply (dict_get_pops_None names), dict_get_pop_eq.
  - apply IH, Hin.
Qed.

Lemma dict_pops_idemp names d :
  dict_pops names (dict_pops names d) = dict_pops names d.
Proof. apply dict_pops_absent. intros n Hin. apply dict_get_pops_In, Hin. Qed.

Lemma heap_update_eq p f (h : heap) : heap_update p f h p = f (h p).
Proof. unfold heap_update. destruct (decide (p = p)); [reflexivity|contradiction]. Qed.

Lemma heap_update_ne p q f (h : heap) : q <> p -> heap_update p f h q = h q.
Proof. intros Hne. unfold heap_update. destruct (decide (q = p)); [contradiction|reflexivity]. Qed.

Lemma revert_signature_at p names h :
  _revert_predictor_signature p names h p =
  set_extended_signature
    (MkTemplate (instructions (extended_signature (h p)))
       (dict_pops names (kwargs (extended_signature (h p)))))
    (h p).
Proof. unfold _revert_predictor_signature. rewrite heap_update_eq. reflexivity. Qed.

Lemma revert_signature_other p q names h :
  q <> p -> _revert_predictor_signature p names h q = h q.
Proof. intros Hne. unfold _revert_predictor_signature. apply heap_update_ne, Hne. Qed.

(** ** The assertion *)

(** [Assert.__init__] in one equation: the assertion function is called
    with the keyword arguments without [msg]. *)
Lemma Assert_init_unfold (f : Assert.assert_fun_t) (args : list pyval)
    (kw : list (string * pyval)) (tr : trace_t) :
  Assert.init f args kw tr =
    (let '(r, tr') := f args (dict_pop "msg" kw) tr in
     match r with
     | Raise e => (Raise e, tr')
     | Ok (PyBool true) =>
         (Ok (Assert.Build f args (default (PyStr "") (dict_get "msg" kw))
                (dict_pop "msg" kw)), tr')
     | Ok (PyBool false) =>
         (Raise (DSPyAssertionError (default (PyStr "") (dict_get "msg" kw)) tr'),
          tr')
     | Ok _ =>
         (Raise (ValueError "Assertion function should always return [bool]"), tr')
     end).
Proof.
  unfold Assert.init.
  destruct (dict_get "msg" kw) as [m|] eqn:Hmsg; simpl;
    [|rewrite (dict_pop_absent "msg" kw Hmsg)];
    unfold Assert.call; simpl;
    match goal with
    | |- context [f ?a ?k ?t] => destruct (f a k t) as [[[| [] | | |]|e] tr']
    end;
    reflexivity.
Qed.

(** C6.  Constructing an [Assert] evaluates the assertion function at once:
    when it returns [True] the construction succeeds and leaves the trace
    as the function left it; when it returns [False] the construction
    raises [DSPyAssertionError] with the message supplied ([""] when none
    was) and with the trace of that moment as its state. *)
Theorem Assert_init_eager (f : Assert.assert_fun_t) (args : list pyval)
    (kw : list (string * pyval)) (tr tr' : trace_t) (b : bool) :
  f args (dict_pop "msg" kw) tr = (Ok (PyBool b), tr') ->
  Assert.init f args kw tr =
    (if b
     then Ok (Assert.Build f args (default (PyStr "") (dict_get "msg" kw))
                (dict_pop "msg" kw))
     else Raise (DSPyAssertionError (default (PyStr "") (dict_get "msg" kw)) tr'),
     tr').
Proof.
  intros Hf. unfold Assert.init.
  destruct (dict_get "msg" kw) as [m|] eqn:Hmsg; simpl.
  - unfold Assert.call; simpl. rewrite Hf. destruct b; reflexivity.
  - rewrite (dict_pop_absent "msg" kw Hmsg) in *.
    unfold Assert.call; simpl. rewrite Hf. destruct b; reflexivity.
Qed.

Lemma Assert_init_eager_witness :
  first_kwarg [] (dict_pop "msg" [("msg", PyStr "too long"); ("ok", PyBool false)]) []
    = (Ok (PyBool false), [TraceEntry 7 PyNone PyNone]) /\
  Assert.init first_kwarg [] [("msg", PyStr "too long"); ("ok", PyBool false)] []
    = (Raise (DSPyAssertionError (PyStr "too long") [TraceEntry 7 PyNone PyNone]),
       [TraceEntry 7 PyNone PyNone]).
Proof.
  split; [reflexivity|].
  exact (Assert_init_eager first_kwarg []
           [("msg", PyStr "too long"); ("ok", PyBool false)] []
           [TraceEntry 7 PyNone PyNone] false eq_refl).
Defined.

(** C10.  [Assert.__init__] calls the assertion function with the
    positional arguments and with the keyword arguments from which [msg] is
    removed: the other keywords keep their values and their order.  Without
    a [msg] keyword the keyword arguments are passed as they are and the
    message of a failure is the empty string. *)
Theorem Assert_init_msg_kwarg (f : Assert.assert_fun_t) (args : list pyval)
    (kw : list (string * pyval)) (tr : trace_t) :
  Assert.init f args kw tr =
    (let '(r, tr') := f args (dict_pop "msg" kw) tr in
     match r with
     | Raise e => (Raise e, tr')
     | Ok (PyBool true) =>
         (Ok (Assert.Build f args (default (PyStr "") (dict_get "msg" kw))
                (dict_pop "msg" kw)), tr')
     | Ok (PyBool false) =>
         (Raise (DSPyAssertionError (default (PyStr "") (dict_get "msg" kw)) tr'),
          tr')
     | Ok _ =>
         (Raise (ValueError "Assertion function should always return [bool]"), tr')
     end) /\
  dict_get "msg" (dict_pop "msg" kw) = None /\
  (forall k, k <> "msg" -> dict_get k (dict_pop "msg" kw) = dict_get k kw) /\
  sublist (dict_pop "msg" kw) kw /\
  (dict_get "msg" kw = None ->
   dict_pop "msg" kw = kw /\
   forall tr', f args kw tr = (Ok (PyBool false), tr') ->
     Assert.init f args kw tr = (Raise (DSPyAssertionError (PyStr "") tr'), tr')).
Proof.
  pose proof (Assert_init_unfold f args kw tr) as Hinit.
  split; [exact Hinit|].
  split; [apply dict_get_pop_eq|].
  split; [intros k Hk; apply dict_get_pop_ne, Hk|].
  split; [apply dict_pop_sublist|].
  intros Hmsg. split; [apply dict_pop_absent, Hmsg|].
  intros tr' Hf. rewrite Hinit, (dict_pop_absent "msg" kw Hmsg), Hf, Hmsg.
  reflexivity.
Qed.

Lemma Assert_init_msg_kwarg_witness :
  dict_get "msg" [("ok", PyBool false); ("n", PyInt 3)] = None /\
  Assert.init first_kwarg [PyInt 1] [("ok", PyBool false); ("n", PyInt 3)] []
    = (Raise (DSPyAssertionError (PyStr "") [TraceEntry 7 PyNone PyNone]),
       [TraceEntry 7 PyNone PyNone]).
Proof.
  split; [reflexivity|].
  exact (proj2 (proj2 (proj2 (proj2 (proj2
           (Assert_init_msg_kwarg first_kwarg [PyInt 1]
              [("ok", PyBool false); ("n", PyInt 3)] []))))
           eq_refl) [TraceEntry 7 PyNone PyNone] eq_refl).
Defined.

(** ** Reverting a contract *)

(** C9.  Reverting the contract of a stage twice with the same field names
    leaves every stage as reverting it once does, and reverting names that
    the contract does not have leaves every stage as it is; the operation is
    a total function, so no error arises in either case. *)
Theorem revert_signature_idempotent (p : nat) (names : list string) (h : heap) :
  (forall q,
     _revert_predictor_signature p names (_revert_predictor_signature p names h) q
     = _revert_predictor_signature p names h q) /\
  ((forall n, In n names ->
      dict_get n (kwargs (extended_signature (h p))) = None) ->
   forall q, _revert_predictor_signature p names h q = h q).
Proof.
  split.
  - intros q. destruct (decide (q = p)) as [->|Hne].
    + rewrite (revert_signature_at p names (_revert_predictor_signature p names h)).
      rewrite !revert_signature_at. simpl.
      rewrite dict_pops_idemp. reflexivity.
    + rewrite !revert_signature_other by exact Hne. reflexivity.
  - intros Habs q. destruct (decide (q = p)) as [->|Hne].
    + rewrite revert_signature_at, (dict_pops_absent _ _ Habs).
      destruct (h p) as [c [ins kws] f]. reflexivity.
    + apply revert_signature_other, Hne.
Qed.

Lemma revert_signature_idempotent_witness :
  (forall n, In n ["feedback"] ->
     dict_get n (kwargs (extended_signature (qa_heap 0))) = None) /\
  forall q, _revert_predictor_signature 0 ["feedback"] qa_heap q = qa_heap q.
Proof.
  assert (Habs : forall n, In n ["feedback"] ->
            dict_get n (kwargs (extended_signature (qa_heap 0))) = None).
  { intros n [<-|[]]. reflexivity. }
  split; [exact Habs|].
  exact (proj2 (revert_signature_idempotent 0 ["feedback"] qa_heap) Habs).
Defined.

(** ** Exceptions that are not assertion failures *)

Lemma invoke_calls func w r w' :
  invoke func w = (r, w') ->
  calls w' = S (calls w) /\ stages w' = stages w /\ stdout w' = stdout w /\
  lm w' = lm w /\ (r, trace w') = func w.
Proof.
  unfold invoke. destruct (func w) as [r0 tr]. intros [= <- <-]. simpl. auto.
Qed.

Lemma invoke_raise func w e tr :
  func w = (Raise e, tr) ->
  invoke func w = (Raise e, MkWorld (stages w) (lm w) tr (stdout w) (S (calls w))).
Proof. intros Hf. unfold invoke. rewrite Hf. reflexivity. Qed.

(** C7.  An assertion function that returns a value that is not a [bool]
    makes the construction raise [ValueError], which is not a
    [DSPyAssertionError]; and in each of the four decorators, at any
    iteration of the loop, an exception of the wrapped function that is not
    a [DSPyAssertionError] leaves the decorator at once: the result is that
    exception and the wrapped function has been invoked this one time and
    not again. *)
Theorem non_assertion_error_not_retried :
  (forall (f : Assert.assert_fun_t) args kw tr v tr',
     f args (dict_pop "msg" kw) tr = (Ok v, tr') ->
     (forall b, v <> PyBool b) ->
     exists text,
       Assert.init f args kw tr = (Raise (ValueError text), tr') /\
       is_DSPyAssertionError (ValueError text) = false) /\
  (forall func i idx w e tr,
     func w = (Raise e, tr) -> is_DSPyAssertionError e = false ->
     exists w',
       assert_transform_loop func (i :: idx) w = (Raise e, w') /\
       calls w' = S (calls w)) /\
  (forall func i idx bt w w1 e tr,
     update_settings i bt w = Ok w1 ->
     func w1 = (Raise e, tr) -> is_DSPyAssertionError e = false ->
     exists w',
       assert_update_transform_loop func (i :: idx) bt w = (Raise e, w') /\
       calls w' = S (calls w)) /\
  (forall func i idx bt w e tr,
     func (latest_rewind i bt w) = (Raise e, tr) ->
     is_DSPyAssertionError e = false ->
     exists w',
       assert_latest_transform_loop func (i :: idx) bt w = (Raise e, w') /\
       calls w' = S (calls w)) /\
  (forall func i idx l w e tr,
     func (feedback_rewind i l w).2 = (Raise e, tr) ->
     is_DSPyAssertionError e = false ->
     exists l' w',
       assert_latest_feedback_transform_loop func (i :: idx) l w
         = (Raise e, l', w') /\
       calls w' = S (calls w)) /\
  (forall func max_backtracks w e l' w',
     assert_latest_feedback_transform_loop func (range (max_backtracks + 1))
       (MkLocals None PyNone []) w = (Raise e, l', w') ->
     assert_latest_feedback_transform max_backtracks func w = (Raise e, w')).
Proof.
  repeat split.
  - intros f args kw tr v tr' Hf Hv.
    exists "Assertion function should always return [bool]".
    split; [|reflexivity].
    rewrite (Assert_init_unfold f args kw tr), Hf.
    destruct v as [|b| | |]; try reflexivity. destruct (Hv b eq_refl).
  - intros func i idx w e tr Hf He. simpl. rewrite (invoke_raise _ _ _ _ Hf).
    destruct e; try discriminate; eexists; split; reflexivity.
  - intros func i idx bt w w1 e tr Hset Hf He. simpl.
    rewrite Hset, (invoke_raise _ _ _ _ Hf).
    assert (Hc : calls w1 = calls w).
    { unfold update_settings in Hset.
      destruct (0 <? i)%nat; [destruct bt; [|discriminate]|];
        injection Hset as <-; reflexivity. }
    destruct e; try discriminate; eexists; (split; [reflexivity|simpl; congruence]).
  - intros func i idx bt w e tr Hf He. simpl. rewrite (invoke_raise _ _ _ _ Hf).
    assert (Hc : calls (latest_rewind i bt w) = calls w).
    { unfold latest_rewind. destruct bt; [destruct (0 <? i)%nat|]; reflexivity. }
    destruct e; try discriminate; eexists; (split; [reflexivity|simpl; congruence]).
  - intros func i idx l w e tr Hf He. simpl.
    assert (Hc : calls (feedback_rewind i l w).2 = calls w).
    { unfold feedback_rewind. destruct (backtrack_to l); [destruct (0 <? i)%nat|];
        reflexivity. }
    destruct (feedback_rewind i l w) as [l1 w1]. simpl in *.
    rewrite (invoke_raise _ _ _ _ Hf).
    destruct e; try discriminate; do 2 eexists; (split; [reflexivity|simpl; congruence]).
  - intros func mb w e l' w' Hloop. unfold assert_latest_feedback_transform.
    rewrite Hloop. reflexivity.
Qed.

Lemma non_assertion_error_not_retried_witness :
  non_bool_pipeline qa_world
    = (Raise (ValueError "Assertion function should always return [bool]"),
       [TraceEntry 7 PyNone PyNone]) /\
  is_DSPyAssertionError
    (ValueError "Assertion function should always return [bool]") = false /\
  exists w',
    assert_transform_loop non_bool_pipeline [0; 1; 2] qa_world
      = (Raise (ValueError "Assertion function should always return [bool]"), w') /\
    calls w' = 1.
Proof.
  split; [reflexivity|]. split; [reflexivity|].
  exact (proj1 (proj2 non_assertion_error_not_retried)
           non_bool_pipeline 0 [1; 2] qa_world
           (ValueError "Assertion function should always return [bool]")
           [TraceEntry 7 PyNone PyNone] eq_refl eq_refl).
Defined.

(** ** Targeted perturbation *)

Lemma dict_get_set_eq {K V : Type} `{EqDecision K} (k : K) (v : V)
    (d : list (K * V)) :
  dict_get k (dict_set k v d) = Some v.
Proof.
  induction d as [|[k' v'] d IH]; simpl.
  - destruct (decide (k = k)); [reflexivity|contradiction].
  - destruct (decide (k' = k)) as [->|Hne]; simpl.
    + destruct (decide (k = k)); [reflexivity|contradiction].
    + destruct (decide (k' = k)); [contradiction|exact IH].
Qed.

Lemma dict_get_set_ne {K V : Type} `{EqDecision K} (k k' : K) (v : V)
    (d : list (K * V)) :
  k' <> k -> dict_get k' (dict_set k v d) = dict_get k' d.
Proof.
  intros Hne. induction d as [|[k0 v0] d IH]; simpl.
  - destruct (decide (k = k')); [congruence|reflexivity].
  - destruct (decide (k0 = k)) as [->|Hk]; simpl.
    + destruct (decide (k = k')); [congruence|reflexivity].
    + destruct (decide (k0 = k')); [reflexivity|exact IH].
Qed.

Lemma latest_rewind_stages_Some i p w :
  (0 < i)%nat ->
  forall q,
    stages (latest_rewind i (Some p) w) q =
    if decide (q = p)
    then set_config (dict_set "temperature" (latest_temperature i)
                       (config (stages w p))) (stages w p)
    else stages w q.
Proof.
  intros Hi q. unfold latest_rewind.
  destruct (0 <? i)%nat eqn:Hlt; [|apply Nat.ltb_ge in Hlt; lia].
  simpl. unfold update_config, heap_update. destruct (decide (q = p)) as [->|]; reflexivity.
Qed.

Lemma latest_rewind_stages_None i w : stages (latest_rewind i None w) = stages w.
Proof. reflexivity. Qed.

(** One step of the loop of [assert_latest_transform].  When the wrapped
    function fails its assertion
    at one iteration and the loop goes on to attempt [j > 0], the target
    [backtrack_to] is the stage of the last trace entry when the trace is
    not empty, and it is left as it was when the trace is empty.  Before
    attempt [j] the configuration of the target gets the temperature
    [0.7 + 0.001 * j], its other parameters and every other stage are
    unchanged; without a target no stage changes. *)
Theorem latest_rewind_after_failure (func : func_t) (i j : nat) (idx : list nat)
    (bt : option nat) (w : world) (msg : pyval) (st tr : trace_t) :
  func (latest_rewind i bt w) = (Raise (DSPyAssertionError msg st), tr) ->
  (0 < j)%nat ->
  exists w1,
    let bt' := match last_stage tr with Some p => Some p | None => bt end in
    let w2 := latest_rewind j bt' w1 in
    assert_latest_transform_loop func (i :: j :: idx) bt w
      = assert_latest_transform_loop func (j :: idx) bt' w1 /\
    stages w1 = stages (latest_rewind i bt w) /\
    (forall p, bt' = Some p ->
       dict_get "temperature" (config (stages w2 p)) = Some (latest_temperature j) /\
       (forall k, k <> "temperature" ->
          dict_get k (config (stages w2 p)) = dict_get k (config (stages w1 p))) /\
       extended_signature (stages w2 p) = extended_signature (stages w1 p) /\
       forward (stages w2 p) = forward (stages w1 p) /\
       forall q, q <> p -> stages w2 q = stages w1 q) /\
    (bt' = None -> forall q, stages w2 q = stages w1 q).
Proof.
  intros Hf Hj.
  remember (latest_rewind i bt w) as w0 eqn:Hw0.
  pose (wf := print (PrintMsg msg)
                (MkWorld (stages w0) (lm w0) tr (stdout w0) (S (calls w0)))).
  exists (blame bt wf).2.
  assert (Hbt : (blame bt wf).1 = match last_stage tr with Some p => Some p | None => bt end).
  { unfold blame, wf. simpl. destruct (last_stage tr); reflexivity. }
  assert (Hst : stages (blame bt wf).2 = stages w0).
  { unfold blame, wf. simpl. destruct (last_stage tr); reflexivity. }
  cbv zeta. split; [|split; [exact Hst|split]].
  - change (assert_latest_transform_loop func (i :: j :: idx) bt w)
      with (match invoke func (latest_rewind i bt w) with
            | (Raise (DSPyAssertionError msg _), w) =>
                let w := print (PrintMsg msg) w in
                let '(backtrack_to, w) := blame bt w in
                assert_latest_transform_loop func (j :: idx) backtrack_to w
            | (r, w) => (r, w)
            end).
    rewrite <- Hw0, (invoke_raise _ _ _ _ Hf). cbv zeta. fold wf.
    rewrite <- Hbt. destruct (blame bt wf); reflexivity.
  - intros p Hp. rewrite Hp.
    pose proof (latest_rewind_stages_Some j p (blame bt wf).2 Hj) as Hq.
    assert (Hpp : stages (latest_rewind j (Some p) (blame bt wf).2) p =
                  set_config (dict_set "temperature" (latest_temperature j)
                                (config (stages (blame bt wf).2 p)))
                    (stages (blame bt wf).2 p)).
    { rewrite (Hq p). destruct (decide (p = p)); [reflexivity|contradiction]. }
    rewrite Hpp.
    split; [apply dict_get_set_eq|].
    split; [intros k Hk; apply dict_get_set_ne, Hk|].
    split; [reflexivity|]. split; [reflexivity|].
    intros q Hne. rewrite (Hq q). destruct (decide (q = p)); [contradiction|reflexivity].
  - intros Hnone q. rewrite Hnone. reflexivity.
Qed.

Lemma latest_rewind_after_failure_witness :
  exists w1,
    assert_latest_transform_loop flaky_latest [0; 1; 2] None qa_world
      = assert_latest_transform_loop flaky_latest [1; 2] (Some 0) w1 /\
    dict_get "temperature" (config (stages (latest_rewind 1 (Some 0) w1) 0))
      = Some (latest_temperature 1) /\
    forall q, q <> 0 -> stages (latest_rewind 1 (Some 0) w1) q = stages w1 q.
Proof.
  destruct (latest_rewind_after_failure flaky_latest 0 1 [2] None qa_world
              (PyStr "first") [TraceEntry 0 PyNone PyNone]
              [TraceEntry 0 PyNone PyNone] eq_refl ltac:(lia))
    as [w1 [Hloop [_ [Hsome _]]]].
  exists w1. split; [exact Hloop|].
  destruct (Hsome 0 eq_refl) as [Ht [_ [_ [_ Hq]]]].
  split; [exact Ht|exact Hq].
Defined.

(** C5, as the specification states it, fails: in this run the assertion
    of the second attempt fails with an empty trace (the "UNREACHABLE"
    line), and before the third attempt the temperature of stage 0 is
    changed all the same, from [0.7 + 0.001 * 1] to [0.7 + 0.001 * 2]. *)
Lemma empty_trace_rewinds_previous_target :
  let run := assert_latest_transform 2 flaky_latest qa_world in
  run.1 = Ok (latest_temperature 2) /\
  stdout run.2 =
    [PrintMsg (PyStr "first");
     PrintRewinding 0;
     PrintPrevTemp 0 None;
     PrintNewTemp 0 (Some (latest_temperature 1));
     PrintMsg (PyStr "second");
     PrintUnreachable;
     PrintRewinding 0;
     PrintPrevTemp 0 (Some (latest_temperature 1));
     PrintNewTemp 0 (Some (latest_temperature 2))] /\
  latest_temperature 1 <> latest_temperature 2 /\
  let failed :=
    MkWorld (stages (latest_rewind 1 (Some 0) qa_world)) [] [] [] 2 in
  trace failed = [] /\
  config (stages (latest_rewind 2 (blame (Some 0) failed).1 (blame (Some 0) failed).2) 0)
    <> config (stages failed 0).
Proof.
  cbv zeta. split; [vm_compute; reflexivity|].
  split; [vm_compute; reflexivity|].
  split.
  { intros H. apply (f_equal (has_temperature (latest_temperature 1))) in H.
    vm_compute in H. discriminate H. }
  split; [reflexivity|].
  intros H.
  apply (f_equal (fun c => has_temperature (latest_temperature 2)
                             (default PyNone (dict_get "temperature" c)))) in H.
  vm_compute in H. discriminate H.
Qed.

(** ** More facts on dictionaries *)

Section pydict_update_facts.
Context {K V : Type} `{EqDecision K}.
Implicit Types (d e : list (K * V)) (k : K) (v : V).

Lemma dict_get_None_iff k d : dict_get k d = None <-> ~ In k (dict_keys d).
Proof.
  induction d as [|[k' v'] d IH]; simpl; [tauto|].
  destruct (decide (k' = k)) as [->|Hne].
  - split; [discriminate|]. intros Hn. destruct Hn. left. reflexivity.
  - rewrite IH. split; [intros Hn [Heq|Hin]; [congruence|tauto]|tauto].
Qed.

Lemma dict_get_app k d e :
  dict_get k (d ++ e) =
  match dict_get k d with Some v => Some v | None => dict_get k e end.
Proof.
  induction d as [|[k' v'] d IH]; simpl; [reflexivity|].
  destruct (decide (k' = k)); [reflexivity|exact IH].
Qed.

Lemma dict_set_fresh k v d : dict_get k d = None -> dict_set k v d = d ++ [(k, v)].
Proof.
  induction d as [|[k' v'] d IH]; simpl; [reflexivity|].
  destruct (decide (k' = k)); [discriminate|]. intros Hn. f_equal. exact (IH Hn).
Qed.

Lemma dict_keys_set k v d :
  dict_keys (dict_set k v d) =
  if dict_in k d then dict_keys d else dict_keys d ++ [k].
Proof.
  unfold dict_in. induction d as [|[k' v'] d IH]; simpl; [reflexivity|].
  destruct (decide (k' = k)) as [->|Hne]; simpl; [reflexivity|].
  rewrite IH. destruct (dict_get k d); reflexivity.
Qed.


Lemma dict_update_fresh d e :
  List.NoDup (dict_keys e) ->
  (forall k, In k (dict_keys e) -> dict_get k d = None) ->
  dict_update d e = d ++ e.
Proof.
  unfold dict_update. revert d.
  induction e as [|[k1 v1] e IH]; intros d Hnd Hfresh; simpl.
  - symmetry. apply app_nil_r.
  - simpl in Hnd. apply List.NoDup_cons_iff in Hnd as [Hnotin Hnd].
    rewrite (dict_set_fresh k1 v1 d) by (apply Hfresh; left; reflexivity).
    rewrite (IH _ Hnd).
    + rewrite <- app_assoc. reflexivity.
    + intros k Hin. rewrite dict_get_app, (Hfresh k) by (right; exact Hin).
      simpl. destruct (decide (k1 = k)) as [->|]; [contradiction|reflexivity].
Qed.

Lemma dict_keys_filter_In (f : K * V -> bool) k d :
  In k (dict_keys (List.filter f d)) -> In k (dict_keys d).
Proof.
  unfold dict_keys. rewrite !in_map_iff. intros [kv [Hk Hin]].
  apply filter_In in Hin as [Hin _]. exists kv. split; assumption.
Qed.

Lemma dict_keys_filter_NoDup (f : K * V -> bool) d :
  List.NoDup (dict_keys d) -> List.NoDup (dict_keys (List.filter f d)).
Proof.
  induction d as [|kv d IH]; simpl; intros Hnd; [constructor|].
  apply List.NoDup_cons_iff in Hnd as [Hnotin Hnd].
  destruct (f kv); simpl; [|exact (IH Hnd)].
  apply List.NoDup_cons_iff. split; [|exact (IH Hnd)].
  intros Hin. apply Hnotin. exact (dict_keys_filter_In f _ _ Hin).
Qed.

Lemma dict_get_filter (f : V -> bool) k d :
  List.NoDup (dict_keys d) ->
  dict_get k (List.filter (fun kv => f kv.2) d) =
  match dict_get k d with
  | Some v => if f v then Some v else None
  | None => None
  end.
Proof.
  induction d as [|[k' v'] d IH]; simpl; intros Hnd; [reflexivity|].
  apply List.NoDup_cons_iff in Hnd as [Hnotin Hnd].
  destruct (decide (k' = k)) as [->|Hne].
  - destruct (f v'); simpl.
    + destruct (decide (k = k)); [reflexivity|contradiction].
    + apply dict_get_None_iff. intros Hin. apply Hnotin.
      exact (dict_keys_filter_In _ _ _ Hin).
  - destruct (f v'); simpl; [destruct (decide (k' = k)); [contradiction|]|];
      exact (IH Hnd).
Qed.
End pydict_update_facts.

(** ** Targeted feedback injection: the mutation *)

Lemma is_InputField_negb v : is_InputField v = negb (is_Type_or_OutputField v).
Proof. unfold is_InputField, is_Type_or_OutputField. destruct (field_cls v); reflexivity. Qed.

Lemma extend_signature_at p new_fields h :
  _extend_predictor_signature p new_fields h p =
  set_extended_signature
    (MkTemplate (instructions (extended_signature (h p)))
       (extend_kwargs new_fields (kwargs (extended_signature (h p)))))
    (h p).
Proof. unfold _extend_predictor_signature. rewrite heap_update_eq. reflexivity. Qed.

Lemma extend_signature_other p q new_fields h :
  q <> p -> _extend_predictor_signature p new_fields h q = h q.
Proof. intros Hne. unfold _extend_predictor_signature. apply heap_update_ne, Hne. Qed.



Lemma extend_kwargs_fresh old :
  List.NoDup (dict_keys old) -> dict_get "feedback" old = None ->
  extend_kwargs [("feedback", feedback)] old =
  List.filter (fun kv => is_InputField kv.2) old
    ++ [("feedback", feedback)]
    ++ List.filter (fun kv => is_Type_or_OutputField kv.2) old.
Proof.
  intros Hnd Hfresh. unfold extend_kwargs.
  assert (Hin : dict_get "feedback"
                  (List.filter (fun kv => is_InputField kv.2) old) = None).
  { rewrite (dict_get_filter is_InputField) by exact Hnd. rewrite Hfresh. reflexivity. }
  unfold dict_update at 2. simpl. rewrite (dict_set_fresh _ _ _ Hin).
  rewrite dict_update_fresh.
  - rewrite <- app_assoc. reflexivity.
  - apply dict_keys_filter_NoDup, Hnd.
  - intros k Hk. rewrite dict_get_app.
    rewrite (dict_get_filter is_InputField) by exact Hnd.
    assert (Hout : exists v, dict_get k old = Some v /\ is_Type_or_OutputField v = true).
    { destruct (dict_get k (List.filter (fun kv => is_Type_or_OutputField kv.2) old))
        as [v|] eqn:Hget.
      - rewrite (dict_get_filter is_Type_or_OutputField) in Hget by exact Hnd.
        destruct (dict_get k old) as [v0|]; [|discriminate].
        destruct (is_Type_or_OutputField v0) eqn:Hv0; [|discriminate].
        exists v0. split; [reflexivity|exact Hv0].
      - apply dict_get_None_iff in Hget. contradiction. }
    destruct Hout as [v [Hget Hv]]. rewrite Hget, is_InputField_negb, Hv. simpl.
    destruct (decide ("feedback" = k)) as [<-|]; [congruence|reflexivity].
Qed.

Lemma feedback_rewind_skip i l w :
  backtrack_to l = None \/ i = 0 -> feedback_rewind i l w = (l, w).
Proof.
  intros [Hbt| ->]; unfold feedback_rewind.
  - rewrite Hbt. reflexivity.
  - destruct (backtrack_to l); reflexivity.
Qed.

Lemma feedback_rewind_Some i l w p :
  backtrack_to l = Some p -> (0 < i)%nat ->
  feedback_rewind i l w =
  (MkLocals (Some p) (error_msg l)
     (dict_set p (forward (stages w p)) (extended_predictors_to_original_forward l)),
   MkWorld
     (_wrap_forward_with_set_fields p [("feedback", error_msg l)]
        (_extend_predictor_signature p [("feedback", feedback)] (stages w)))
     (lm w) (trace w) (stdout w ++ [PrintRewinding p]) (calls w)).
Proof.
  intros Hbt Hi. unfold feedback_rewind. rewrite Hbt.
  destruct (0 <? i)%nat eqn:Hlt; [reflexivity|apply Nat.ltb_ge in Hlt; lia].
Qed.

Lemma wrap_extend_at p m h :
  _wrap_forward_with_set_fields p [("feedback", m)]
    (_extend_predictor_signature p [("feedback", feedback)] h) p =
  MkPredict (config (h p))
    (MkTemplate (instructions (extended_signature (h p)))
       (extend_kwargs [("feedback", feedback)] (kwargs (extended_signature (h p)))))
    (new_forward [("feedback", m)] (forward (h p))).
Proof.
  unfold _wrap_forward_with_set_fields. rewrite heap_update_eq, extend_signature_at.
  reflexivity.
Qed.

Lemma wrap_extend_other p q m h :
  q <> p ->
  _wrap_forward_with_set_fields p [("feedback", m)]
    (_extend_predictor_signature p [("feedback", feedback)] h) q = h q.
Proof.
  intros Hne. unfold _wrap_forward_with_set_fields.
  rewrite heap_update_ne by exact Hne. apply extend_signature_other, Hne.
Qed.




Lemma feedback_loop_fail func i idx l w msg st tr :
  func (feedback_rewind i l w).2 = (Raise (DSPyAssertionError msg st), tr) ->
  assert_latest_feedback_transform_loop func (i :: idx) l w =
  assert_latest_feedback_transform_loop func idx
    (after_failure msg tr (feedback_rewind i l w).1 (feedback_rewind i l w).2).1
    (after_failure msg tr (feedback_rewind i l w).1 (feedback_rewind i l w).2).2.
Proof.
  intros Hf. simpl. destruct (feedback_rewind i l w) as [l0 w0]. simpl in *.
  rewrite (invoke_raise _ _ _ _ Hf). unfold after_failure.
  destruct (blame _ _) as [bt w1]. reflexivity.
Qed.

Lemma feedback_loop_return func i idx l w v tr :
  func (feedback_rewind i l w).2 = (Ok v, tr) ->
  assert_latest_feedback_transform_loop func (i :: idx) l w =
  (Ok v, (feedback_rewind i l w).1,
   let w0 := (feedback_rewind i l w).2 in
   MkWorld (stages w0) (lm w0) tr (stdout w0) (S (calls w0))).
Proof.
  intros Hf. simpl. destruct (feedback_rewind i l w) as [l0 w0]. simpl in *.
  unfold invoke. rewrite Hf. reflexivity.
Qed.

Lemma feedback_loop_raise func i idx l w e tr :
  func (feedback_rewind i l w).2 = (Raise e, tr) ->
  is_DSPyAssertionError e = false ->
  assert_latest_feedback_transform_loop func (i :: idx) l w =
  (Raise e, (feedback_rewind i l w).1,
   let w0 := (feedback_rewind i l w).2 in
   MkWorld (stages w0) (lm w0) tr (stdout w0) (S (calls w0))).
Proof.
  intros Hf He. simpl. destruct (feedback_rewind i l w) as [l0 w0]. simpl in *.
  rewrite (invoke_raise _ _ _ _ Hf). destruct e; try discriminate; reflexivity.
Qed.

Lemma after_failure_facts msg tr l w :
  let '(l1, w1) := after_failure msg tr l w in
  error_msg l1 = msg /\
  backtrack_to l1 =
    match last_stage tr with Some p => Some p | None => backtrack_to l end /\
  extended_predictors_to_original_forward l1 =
    extended_predictors_to_original_forward l /\
  stages w1 = stages w /\
  calls w1 = S (calls w) /\
  exists out,
    stdout w1 = stdout w ++ out /\
    forall x, In x out ->
      x = PrintAssertionError msg \/ x = PrintUnreachable.
Proof.
  unfold after_failure, blame. simpl. destruct (last_stage tr) as [p|]; simpl.
  - repeat split. exists [PrintAssertionError msg]. split; [reflexivity|].
    intros x [<-|[]]. left. reflexivity.
  - repeat split. exists [PrintAssertionError msg; PrintUnreachable].
    split; [rewrite <- app_assoc; reflexivity|].
    intros x [<-|[<-|[]]]; [left|right]; reflexivity.
Qed.




(** ** Targeted feedback injection: the restoration *)

(** C1 fails on scenario A.  The run makes three invocations and returns
    the result of the third, which saw the newest message as feedback; it
    prints one "reverting" line for stage 0 and restores its contract; but
    the entry point of stage 0 is left as the wrapper installed before the
    second attempt, not as the entry point the stage had before the run. *)
Theorem scenario_A_entry_point_not_restored :
  let run := assert_latest_feedback_transform 2 flaky_feedback qa_world in
  run.1 = Ok (PyStr "still too short") /\
  calls run.2 = 3 /\
  stdout run.2 =
    [PrintAssertionError (PyStr "too short");
     PrintRewinding 0;
     PrintAssertionError (PyStr "still too short");
     PrintRewinding 0;
     PrintReverting 0] /\
  extended_signature (stages run.2 0) = extended_signature (stages qa_world 0) /\
  forward (stages qa_world 0) = Method 0 /\
  forward (stages run.2 0) = new_forward [("feedback", PyStr "too short")] (Method 0) /\
  feedback_passed 0 qa_world = PyNone /\
  feedback_passed 0 run.2 = PyStr "too short".
Proof. cbv zeta. repeat split; vm_compute; reflexivity. Qed.

(** C2 fails on the exception exit: when the second attempt raises an
    exception that is not an assertion failure, the exception leaves the
    decorator, no "reverting" line is printed, and stage 0 keeps the
    feedback field and the wrapped entry point, which it did not have
    before the run. *)
Lemma exception_skips_restoration :
  let run := assert_latest_feedback_transform 2 crashing_pipeline qa_world in
  run.1 = Raise (OtherException 1) /\
  stdout run.2 = [PrintAssertionError (PyStr "too short"); PrintRewinding 0] /\
  dict_get "feedback" (kwargs (extended_signature (stages run.2 0))) = Some feedback /\
  dict_get "feedback" (kwargs (extended_signature (stages qa_world 0))) = None /\
  forward (stages run.2 0) = new_forward [("feedback", PyStr "too short")] (Method 0) /\
  forward (stages qa_world 0) = Method 0.
Proof. cbv zeta. repeat split; vm_compute; reflexivity. Qed.

(** ** The unbound local variable of assert_update_transform *)

(** C4 fails for [max_backtracks = 1]: after the first attempt failed with
    an empty trace, [assert_update_transform] prints the "UNREACHABLE" line
    and then raises [UnboundLocalError] instead of making the second
    attempt; [assert_latest_transform] makes the second attempt. *)
Theorem update_transform_empty_trace_fatal :
  let run := assert_update_transform 1 failing_without_trace qa_world in
  run.1 = Raise (UnboundLocalError "backtrack_to") /\
  calls run.2 = 1 /\
  stdout run.2 = [PrintMsg (PyStr "wrong"); PrintUnreachable] /\
  let sibling := assert_latest_transform 1 failing_without_trace qa_world in
  sibling.1 = Ok PyNone /\ calls sibling.2 = 2.
Proof. cbv zeta. repeat split; vm_compute; reflexivity. Qed.

(** C3 fails for [assert_update_transform]: with [max_backtracks = 2] and a
    wrapped function that fails on every attempt with an empty trace, the
    three other decorators make three invocations and return [None], and
    [assert_update_transform] raises [UnboundLocalError] after one. *)
Theorem update_transform_exhaustion_raises :
  let blind := assert_transform 2 failing_without_trace qa_world in
  let latest := assert_latest_transform 2 failing_without_trace qa_world in
  let fb := assert_latest_feedback_transform 2 failing_without_trace qa_world in
  let update := assert_update_transform 2 failing_without_trace qa_world in
  (blind.1 = Ok PyNone /\ calls blind.2 = 3) /\
  (latest.1 = Ok PyNone /\ calls latest.2 = 3) /\
  (fb.1 = Ok PyNone /\ calls fb.2 = 3) /\
  (update.1 = Raise (UnboundLocalError "backtrack_to") /\ calls update.2 = 1).
Proof. cbv zeta. repeat split; vm_compute; reflexivity. Qed.

(** *** Counting the mutations and the restorations of a run *)

Lemma rewinds_app p a b : rewinds p (a ++ b) = rewinds p a + rewinds p b.
Proof. unfold rewinds. rewrite List.filter_app, length_app. reflexivity. Qed.

Lemma reverts_app p a b : reverts p (a ++ b) = reverts p a + reverts p b.
Proof. unfold reverts. rewrite List.filter_app, length_app. reflexivity. Qed.

Lemma rewinds_none p out :
  (forall x, In x out -> is_rewinding p x = false) -> rewinds p out = 0.
Proof.
  unfold rewinds. induction out as [|x out IH]; intros Hno; [reflexivity|].
  simpl. rewrite (Hno x) by (left; reflexivity).
  apply IH. intros y Hy. apply Hno. right. exact Hy.
Qed.

Lemma reverts_none p out :
  (forall x, In x out -> is_reverting p x = false) -> reverts p out = 0.
Proof.
  unfold reverts. induction out as [|x out IH]; intros Hno; [reflexivity|].
  simpl. rewrite (Hno x) by (left; reflexivity).
  apply IH. intros y Hy. apply Hno. right. exact Hy.
Qed.

Lemma revert_one_stages w p f q :
  stages (revert_one w (p, f)) q =
  if decide (q = p) then reverted f (stages w p) else stages w q.
Proof.
  unfold revert_one. simpl. unfold heap_update.
  destruct (decide (q = p)) as [->|Hne].
  - rewrite revert_signature_at. reflexivity.
  - apply revert_signature_other, Hne.
Qed.

Lemma revert_one_stdout w p f :
  stdout (revert_one w (p, f)) = stdout w ++ [PrintReverting p].
Proof. reflexivity. Qed.

Lemma revert_extended_fold saved w :
  revert_extended saved w = fold_left revert_one saved w.
Proof. destruct saved; reflexivity. Qed.

Lemma revert_extended_stages saved w q :
  List.NoDup (dict_keys saved) ->
  stages (revert_extended saved w) q =
  match dict_get q saved with
  | Some f => reverted f (stages w q)
  | None => stages w q
  end.
Proof.
  rewrite revert_extended_fold. revert w.
  induction saved as [|[p f] saved IH]; intros w Hnd; [reflexivity|].
  simpl in Hnd. apply List.NoDup_cons_iff in Hnd as [Hnotin Hnd].
  cbn [fold_left dict_get]. rewrite (IH _ Hnd), (revert_one_stages w p f q).
  destruct (decide (p = q)) as [->|Hne].
  - apply dict_get_None_iff in Hnotin. rewrite Hnotin.
    destruct (decide (q = q)); [reflexivity|contradiction].
  - destruct (decide (q = p)); [congruence|reflexivity].
Qed.

Lemma revert_extended_stdout saved w :
  stdout (revert_extended saved w) =
  stdout w ++ map (fun item => PrintReverting item.1) saved.
Proof.
  rewrite revert_extended_fold. revert w.
  induction saved as [|[p f] saved IH]; intros w.
  - symmetry. apply app_nil_r.
  - cbn [fold_left map]. rewrite IH, revert_one_stdout, <- app_assoc. reflexivity.
Qed.

Lemma reverts_saved p (saved : list (nat * callable)) :
  List.NoDup (dict_keys saved) ->
  reverts p (map (fun item => PrintReverting item.1) saved) =
  match dict_get p saved with Some _ => 1 | None => 0 end.
Proof.
  induction saved as [|[q f] saved IH]; intros Hnd; [reflexivity|].
  simpl in Hnd. apply List.NoDup_cons_iff in Hnd as [Hnotin Hnd].
  change (reverts p (map (fun item => PrintReverting item.1) ((q, f) :: saved)))
    with (reverts p ([PrintReverting q]
                       ++ map (fun item => PrintReverting item.1) saved)).
  rewrite reverts_app, (IH Hnd). simpl.
  unfold reverts. simpl. destruct (decide (q = p)) as [->|Hne].
  - rewrite bool_decide_eq_true_2 by reflexivity.
    apply dict_get_None_iff in Hnotin. rewrite Hnotin. reflexivity.
  - rewrite bool_decide_eq_false_2 by exact Hne. reflexivity.
Qed.

Lemma rewinds_saved p (saved : list (nat * callable)) :
  rewinds p (map (fun item => PrintReverting item.1) saved) = 0.
Proof.
  apply rewinds_none. intros x Hin. apply in_map_iff in Hin as [item [<- _]].
  reflexivity.
Qed.

Lemma dict_keys_set_NoDup {K V : Type} `{EqDecision K} (k : K) (v : V)
    (d : list (K * V)) :
  List.NoDup (dict_keys d) -> List.NoDup (dict_keys (dict_set k v d)).
Proof.
  intros Hnd. rewrite dict_keys_set. unfold dict_in.
  destruct (dict_get k d) eqn:Hget; [exact Hnd|].
  apply dict_get_None_iff in Hget.
  apply List.NoDup_rev in Hnd. rewrite <- (rev_involutive (dict_keys d ++ [k])).
  apply List.NoDup_rev. rewrite rev_app_distr. simpl.
  apply List.NoDup_cons_iff. split; [|exact Hnd].
  intros Hin. apply Hget. apply in_rev. exact Hin.
Qed.

Lemma dict_set_keeps {K V : Type} `{EqDecision K} (k k' : K) (v : V)
    (d : list (K * V)) :
  (exists x, dict_get k d = Some x) ->
  exists x, dict_get k (dict_set k' v d) = Some x.
Proof.
  intros Hx. destruct (decide (k = k')) as [->|Hne].
  - exists v. apply dict_get_set_eq.
  - rewrite dict_get_set_ne by exact Hne. exact Hx.
Qed.

Lemma dict_update_keeps {K V : Type} `{EqDecision K} (k : K)
    (d e : list (K * V)) :
  (exists x, dict_get k d = Some x) ->
  exists x, dict_get k (dict_update d e) = Some x.
Proof.
  unfold dict_update. revert d.
  induction e as [|[k1 v1] e IH]; intros d Hx; [exact Hx|].
  simpl. apply IH, dict_set_keeps, Hx.
Qed.

Lemma extend_kwargs_has_feedback old :
  exists v, dict_get "feedback" (extend_kwargs [("feedback", feedback)] old) = Some v.
Proof.
  unfold extend_kwargs. apply dict_update_keeps.
  exists feedback. unfold dict_update at 1. simpl. apply dict_get_set_eq.
Qed.

Lemma feedback_inv_init h0 : feedback_inv h0 [] [] h0.
Proof.
  split.
  - constructor.
  - reflexivity.
  - intros p _. split; reflexivity.
  - intros p Hp. unfold rewinds in Hp. simpl in Hp. lia.
  - intros p Hp. discriminate Hp.
Qed.

Lemma feedback_inv_print h0 out extra saved h :
  (forall p x, In x extra -> is_rewinding p x = false /\ is_reverting p x = false) ->
  feedback_inv h0 out saved h -> feedback_inv h0 (out ++ extra) saved h.
Proof.
  intros Hextra [Hnd Hrev Hun Hto Ho].
  assert (Hrw : forall p, rewinds p (out ++ extra) = rewinds p out).
  { intros p. rewrite rewinds_app, (rewinds_none p extra); [lia|].
    intros x Hx. apply (Hextra p x Hx). }
  split.
  - exact Hnd.
  - intros p. rewrite reverts_app, Hrev, (reverts_none p extra); [reflexivity|].
    intros x Hx. apply (Hextra p x Hx).
  - intros p. rewrite Hrw. apply Hun.
  - intros p. rewrite Hrw. apply Hto.
  - intros p. rewrite Hrw. apply Ho.
Qed.

Lemma rewinds_snoc p q out :
  rewinds p (out ++ [PrintRewinding q]) =
  rewinds p out + (if decide (q = p) then 1 else 0).
Proof.
  rewrite rewinds_app. unfold rewinds at 2. simpl.
  destruct (decide (q = p)) as [Heq|Hne].
  - rewrite bool_decide_eq_true_2 by exact Heq. reflexivity.
  - rewrite bool_decide_eq_false_2 by exact Hne. reflexivity.
Qed.

Lemma feedback_inv_rewind h0 out saved h p m :
  feedback_inv h0 out saved h ->
  feedback_inv h0 (out ++ [PrintRewinding p])
    (dict_set p (forward (h p)) saved)
    (_wrap_forward_with_set_fields p [("feedback", m)]
       (_extend_predictor_signature p [("feedback", feedback)] h)).
Proof.
  intros [Hnd Hrev Hun Hto Ho]. split.
  - apply dict_keys_set_NoDup, Hnd.
  - intros q. rewrite reverts_app, Hrev. reflexivity.
  - intros q. rewrite rewinds_snoc. destruct (decide (p = q)) as [->|Hne]; [lia|].
    rewrite Nat.add_0_r. intros Hq.
    rewrite wrap_extend_other by congruence.
    rewrite dict_get_set_ne by congruence. apply Hun, Hq.
  - intros q. rewrite rewinds_snoc. destruct (decide (p = q)) as [->|Hne].
    + intros _. rewrite wrap_extend_at. simpl.
      split; [exists (forward (h q)); apply dict_get_set_eq|].
      assert (Hci : config (h q) = config (h0 q) /\
                    instructions (extended_signature (h q))
                      = instructions (extended_signature (h0 q))).
      { destruct (Nat.eq_dec (rewinds q out) 0) as [Hz|Hnz].
        - destruct (Hun q Hz) as [-> _]. split; reflexivity.
        - destruct (Hto q ltac:(lia)) as [_ [Hc [Hi _]]]. split; assumption. }
      destruct Hci as [Hc Hi].
      split; [exact Hc|]. split; [exact Hi|].
      split; [exists m, (forward (h q)); reflexivity|].
      apply extend_kwargs_has_feedback.
    + rewrite Nat.add_0_r. intros Hq.
      rewrite wrap_extend_other by congruence.
      rewrite dict_get_set_ne by congruence. apply Hto, Hq.
  - intros q. rewrite rewinds_snoc. destruct (decide (p = q)) as [->|Hne].
    + intros Hq. assert (Hz : rewinds q out = 0) by lia.
      destruct (Hun q Hz) as [Hh _].
      rewrite wrap_extend_at. simpl. rewrite Hh.
      split; [apply dict_get_set_eq|reflexivity].
    + rewrite Nat.add_0_r. intros Hq.
      rewrite wrap_extend_other by congruence.
      rewrite dict_get_set_ne by congruence. apply Ho, Hq.
Qed.

Lemma feedback_rewind_inv h0 s0 i l w out :
  stdout w = s0 ++ out ->
  feedback_inv h0 out (extended_predictors_to_original_forward l) (stages w) ->
  exists out',
    stdout (feedback_rewind i l w).2 = s0 ++ out' /\
    feedback_inv h0 out'
      (extended_predictors_to_original_forward (feedback_rewind i l w).1)
      (stages (feedback_rewind i l w).2).
Proof.
  intros Hout Hinv.
  destruct (backtrack_to l) as [p|] eqn:Hbt.
  - destruct (Nat.eq_dec i 0) as [->|Hi].
    + rewrite feedback_rewind_skip by (right; reflexivity).
      exists out. split; assumption.
    + rewrite (feedback_rewind_Some i l w p Hbt) by lia. simpl.
      exists (out ++ [PrintRewinding p]). split.
      * rewrite Hout, <- app_assoc. reflexivity.
      * apply feedback_inv_rewind, Hinv.
  - rewrite feedback_rewind_skip by (left; exact Hbt).
    exists out. split; assumption.
Qed.

Lemma after_failure_inv h0 s0 msg tr l w out :
  stdout w = s0 ++ out ->
  feedback_inv h0 out (extended_predictors_to_original_forward l) (stages w) ->
  exists out',
    stdout (after_failure msg tr l w).2 = s0 ++ out' /\
    feedback_inv h0 out'
      (extended_predictors_to_original_forward (after_failure msg tr l w).1)
      (stages (after_failure msg tr l w).2).
Proof.
  intros Hout Hinv.
  pose proof (after_failure_facts msg tr l w) as Hfacts.
  destruct (after_failure msg tr l w) as [l1 w1]. simpl.
  destruct Hfacts as [_ [_ [Hsaved [Hst [_ [extra [Hstd Hextra]]]]]]].
  exists (out ++ extra). split.
  - rewrite Hstd, Hout, <- app_assoc. reflexivity.
  - rewrite Hsaved, Hst. apply feedback_inv_print; [|exact Hinv].
    intros p x Hx. destruct (Hextra x Hx) as [-> | ->]; split; reflexivity.
Qed.

Lemma feedback_loop_inv func h0 s0 idx :
  forall l w out r l' w',
    stdout w = s0 ++ out ->
    feedback_inv h0 out (extended_predictors_to_original_forward l) (stages w) ->
    assert_latest_feedback_transform_loop func idx l w = (r, l', w') ->
    exists out',
      stdout w' = s0 ++ out' /\
      feedback_inv h0 out' (extended_predictors_to_original_forward l') (stages w') /\
      forall e, r = Raise e -> is_DSPyAssertionError e = false.
Proof.
  induction idx as [|i idx IH]; intros l w out r l' w' Hout Hinv Hloop.
  - injection Hloop as <- <- <-. exists out.
    split; [exact Hout|]. split; [exact Hinv|]. intros e He. discriminate He.
  - destruct (feedback_rewind_inv h0 s0 i l w out Hout Hinv) as [out1 [Hout1 Hinv1]].
    destruct (func (feedback_rewind i l w).2) as [[v|e] tr] eqn:Hf.
    + rewrite (feedback_loop_return _ _ _ _ _ _ _ Hf) in Hloop.
      injection Hloop as <- <- <-. exists out1.
      split; [exact Hout1|]. split; [exact Hinv1|]. intros e He. discriminate He.
    + destruct (is_DSPyAssertionError e) eqn:He.
      * destruct e as [msg st| | |]; try discriminate He.
        rewrite (feedback_loop_fail _ _ _ _ _ _ _ _ Hf) in Hloop.
        destruct (after_failure_inv h0 s0 msg tr _ _ out1 Hout1 Hinv1)
          as [out2 [Hout2 Hinv2]].
        exact (IH _ _ out2 r l' w' Hout2 Hinv2 Hloop).
      * rewrite (feedback_loop_raise _ _ _ _ _ _ _ Hf He) in Hloop.
        injection Hloop as <- <- <-. exists out1.
        split; [exact Hout1|]. split; [exact Hinv1|].
        intros e' [= <-]. exact He.
Qed.

Lemma revert_extend_canonical t :
  canonical_contract t ->
  dict_pop "feedback" (extend_kwargs [("feedback", feedback)] (kwargs t)) = kwargs t.
Proof.
  intros [Hnd [Hfresh Hshape]].
  rewrite (extend_kwargs_fresh _ Hnd Hfresh).
  unfold dict_pop. rewrite !filter_app.
  assert (Hin : dict_get "feedback"
                  (List.filter (fun kv => is_InputField kv.2) (kwargs t)) = None).
  { rewrite (dict_get_filter is_InputField) by exact Hnd. rewrite Hfresh. reflexivity. }
  assert (Hout : dict_get "feedback"
                   (List.filter (fun kv => is_Type_or_OutputField kv.2) (kwargs t)) = None).
  { rewrite (dict_get_filter is_Type_or_OutputField) by exact Hnd.
    rewrite Hfresh. reflexivity. }
  pose proof (dict_pop_absent _ _ Hin) as Hpin.
  pose proof (dict_pop_absent _ _ Hout) as Hpout.
  unfold dict_pop in Hpin, Hpout. rewrite Hpin, Hpout.
  rewrite filter_cons, filter_nil. simpl.
  destruct (decide ("feedback" <> "feedback")); [contradiction|].
  simpl. symmetry. exact Hshape.
Qed.

(** X14.  The restoration on the paths that reach it.  Let [out] be the
    lines a run of [assert_latest_feedback_transform] prints.  When the run returns (the
    wrapped function succeeded, or every attempt failed its assertion),
    every stage that was mutated is reverted exactly once and no other stage
    is; a stage that was not mutated is as before the run; a mutated stage
    has no ["feedback"] field, and its configuration and instructions are
    as before the run; a stage that was mutated once has the entry point it
    had before the run, and is as before the run altogether when its
    contract was canonical.  When the run raises, the exception is not an
    assertion failure, nothing is reverted, and every mutated stage keeps
    a wrapped entry point and a ["feedback"] field. *)
Theorem restoration_on_return (max_backtracks : Z) (func : func_t) (w : world) :
  let '(r, w') := assert_latest_feedback_transform max_backtracks func w in
  exists out,
    stdout w' = stdout w ++ out /\
    match r with
    | Ok _ =>
        forall p,
          reverts p out = (if (rewinds p out =? 0)%nat then 0 else 1) /\
          (rewinds p out = 0 -> stages w' p = stages w p) /\
          ((0 < rewinds p out)%nat ->
           dict_get "feedback" (kwargs (extended_signature (stages w' p))) = None /\
           config (stages w' p) = config (stages w p) /\
           instructions (extended_signature (stages w' p))
             = instructions (extended_signature (stages w p))) /\
          (rewinds p out = 1 ->
           forward (stages w' p) = forward (stages w p) /\
           (canonical_contract (extended_signature (stages w p)) ->
            stages w' p = stages w p))
    | Raise e =>
        is_DSPyAssertionError e = false /\
        forall p,
          reverts p out = 0 /\
          ((0 < rewinds p out)%nat ->
           feedback_wrapper (forward (stages w' p)) /\
           exists v,
             dict_get "feedback" (kwargs (extended_signature (stages w' p))) = Some v)
    end.
Proof.
  unfold assert_latest_feedback_transform.
  destruct (assert_latest_feedback_transform_loop func (range (max_backtracks + 1))
              (MkLocals None PyNone []) w) as [[r l'] wl] eqn:Hloop.
  destruct (feedback_loop_inv func (stages w) (stdout w) _
              (MkLocals None PyNone []) w [] r l' wl
              (eq_sym (app_nil_r _)) (feedback_inv_init _) Hloop)
    as [out [Hout [Hinv Hraise]]].
  destruct Hinv as [Hnd Hrev Hun Hto Ho].
  destruct r as [v|e].
  - set (saved := extended_predictors_to_original_forward l') in *.
    exists (out ++ map (fun item => PrintReverting item.1) saved).
    split; [rewrite revert_extended_stdout, Hout, <- app_assoc; reflexivity|].
    intros p.
    rewrite rewinds_app, rewinds_saved, Nat.add_0_r.
    rewrite reverts_app, Hrev, (reverts_saved p saved Hnd).
    rewrite (revert_extended_stages saved wl p Hnd).
    destruct (Nat.eq_dec (rewinds p out) 0) as [Hz|Hnz].
    + destruct (Hun p Hz) as [Hh Hnone]. rewrite Hnone, Hz. simpl.
      split; [reflexivity|]. split; [intros _; exact Hh|].
      split; [intros Hlt; lia|]. intros Hone; discriminate Hone.
    + destruct (Hto p ltac:(lia)) as [[f Hf] [Hc [Hi _]]]. rewrite Hf.
      destruct (rewinds p out =? 0)%nat eqn:Hq; [apply Nat.eqb_eq in Hq; lia|].
      split; [reflexivity|]. split; [intros Hz; lia|].
      split.
      * intros _. simpl. split; [apply dict_get_pop_eq|]. split; assumption.
      * intros Hone. destruct (Ho p Hone) as [Hsaved Hkw].
        assert (Hff : f = forward (stages w p)) by congruence.
        split; [exact Hff|].
        intros Hcan. unfold reverted. rewrite Hkw, (revert_extend_canonical _ Hcan).
        rewrite Hc, Hi, Hff. destruct (stages w p) as [c [ins kws] fw]. reflexivity.
  - exists out. split; [exact Hout|]. split; [apply Hraise; reflexivity|].
    intros p. split; [apply Hrev|].
    intros Hlt. destruct (Hto p Hlt) as [_ [_ [_ [Hw Hfb]]]]. split; assumption.
Qed.

Lemma qa_signature_canonical : canonical_contract qa_signature.
Proof.
  split; [|split; reflexivity].
  repeat (apply List.NoDup_cons; [simpl; intuition discriminate|]).
  apply List.NoDup_nil.
Qed.

Lemma restoration_on_return_witness :
  let run := assert_latest_feedback_transform 2 critic_pipeline qa_world in
  rewinds 0 (stdout run.2) = 1 /\
  reverts 0 (stdout run.2) = 1 /\
  stages run.2 0 = stages qa_world 0.
Proof.
  cbv zeta.
  pose proof (restoration_on_return 2 critic_pipeline qa_world) as H.
  destruct (assert_latest_feedback_transform 2 critic_pipeline qa_world)
    as [r w'] eqn:Hrun.
  assert (Hr : r = Ok (PyBool true)).
  { apply (f_equal fst) in Hrun. vm_compute in Hrun. symmetry. exact Hrun. }
  assert (Hstd : stdout w' =
                 [PrintAssertionError (PyStr "too vague"); PrintRewinding 0;
                  PrintReverting 0]).
  { apply (f_equal (fun x => stdout x.2)) in Hrun. vm_compute in Hrun.
    symmetry. exact Hrun. }
  destruct H as [out [Hout H]]. simpl in Hout. rewrite Hr in H.
  rewrite <- Hout, Hstd in H. simpl. rewrite Hstd.
  destruct (H 0) as [_ [_ [_ Hone]]].
  split; [reflexivity|]. split; [reflexivity|].
  exact (proj2 (Hone eq_refl) qa_signature_canonical).
Defined.

(** ** The bound on the attempts *)

(** In each of the four loops the wrapped function is invoked at most once
    for every index of the loop. *)
Lemma retry_loops_bound (func : func_t) (idx : list nat) :
  (forall w, calls (assert_transform_loop func idx w).2 <= calls w + length idx) /\
  (forall bt w,
     calls (assert_update_transform_loop func idx bt w).2 <= calls w + length idx) /\
  (forall bt w,
     calls (assert_latest_transform_loop func idx bt w).2 <= calls w + length idx) /\
  (forall l w,
     calls (assert_latest_feedback_transform_loop func idx l w).2
       <= calls w + length idx).
Proof.
  induction idx as [|i idx [IH1 [IH2 [IH3 IH4]]]].
  - repeat split; intros; simpl; lia.
  - split; [|split; [|split]].
    + intros w. simpl. unfold invoke. destruct (func w) as [[v|e] tr]; simpl; [lia|].
      destruct e; simpl; try lia.
      match goal with |- context [assert_transform_loop func idx ?x] =>
        pose proof (IH1 x) as Hb end.
      destruct tr; simpl in *; lia.
    + intros bt w. simpl.
      destruct (update_settings i bt w) as [w1|e] eqn:Hset; simpl; [|lia].
      assert (Hc : calls w1 = calls w).
      { unfold update_settings in Hset.
        destruct (0 <? i)%nat; [destruct bt; [|discriminate]|];
          injection Hset as <-; reflexivity. }
      unfold invoke. destruct (func w1) as [[v|e] tr]; simpl; [lia|].
      destruct e; simpl; try lia.
      destruct (last_stage tr) as [p|];
        match goal with |- context [assert_update_transform_loop func idx ?b ?x] =>
          pose proof (IH2 b x) as Hb end; simpl in *; lia.
    + intros bt w. simpl.
      assert (Hc : calls (latest_rewind i bt w) = calls w).
      { unfold latest_rewind. destruct bt; [destruct (0 <? i)%nat|]; reflexivity. }
      unfold invoke. destruct (func (latest_rewind i bt w)) as [[v|e] tr]; simpl; [lia|].
      destruct e; simpl; try lia.
      unfold blame. simpl. destruct (last_stage tr) as [p|];
        match goal with |- context [assert_latest_transform_loop func idx ?b ?x] =>
          pose proof (IH3 b x) as Hb end; simpl in *; lia.
    + intros l w. simpl.
      assert (Hc : calls (feedback_rewind i l w).2 = calls w).
      { unfold feedback_rewind. destruct (backtrack_to l); [destruct (0 <? i)%nat|];
          reflexivity. }
      destruct (feedback_rewind i l w) as [l0 w0]. simpl in Hc.
      unfold invoke. destruct (func w0) as [[v|e] tr]; simpl; [lia|].
      destruct e; simpl; try lia.
      unfold blame. simpl. destruct (last_stage tr) as [p|];
        match goal with
        |- context [assert_latest_feedback_transform_loop func idx ?b ?x] =>
          pose proof (IH4 b x) as Hb end; simpl in *; lia.
Qed.

Lemma range_length (n : Z) : length (range n) = Z.to_nat n.
Proof. unfold range. apply length_seq. Qed.


(** X13.  In [assert_update_transform] a first attempt that fails its assertion
    with an empty trace is the last one whenever a second attempt is due:
    the read of [backtrack_to] raises [UnboundLocalError]. *)
Lemma update_transform_unbound (max_backtracks : Z) (func : func_t) (w : world)
    (msg : pyval) (st : trace_t) :
  (1 <= max_backtracks)%Z ->
  func w = (Raise (DSPyAssertionError msg st), []) ->
  (assert_update_transform max_backtracks func w).1
    = Raise (UnboundLocalError "backtrack_to") /\
  calls (assert_update_transform max_backtracks func w).2 = S (calls w).
Proof.
  intros Hmb Hf. unfold assert_update_transform, range.
  destruct (Z.to_nat (max_backtracks + 1)) as [|[|n]] eqn:Hn; try lia.
  simpl. unfold invoke. rewrite Hf. simpl. split; reflexivity.
Qed.

(** * Further properties of the decorators *)

(** ** What a run leaves unchanged *)

Lemma assert_transform_loop_frame func idx :
  forall w,
    stages (assert_transform_loop func idx w).2 = stages w /\
    lm (assert_transform_loop func idx w).2 = lm w.
Proof.
  induction idx as [|i idx IH]; intros w; [split; reflexivity|].
  simpl. unfold invoke. destruct (func w) as [[v|e] tr]; [split; reflexivity|].
  destruct e; try (split; reflexivity).
  match goal with |- context [assert_transform_loop func idx ?x] =>
    destruct (IH x) as [Hs Hl] end.
  rewrite Hs, Hl. destruct tr; split; reflexivity.
Qed.

(** X1.  Blind retry mutates nothing: whatever the wrapped function does
    and however the run ends, [assert_transform] leaves every stage and the
    language model settings as they were. *)
Theorem assert_transform_frame (max_backtracks : Z) (func : func_t) (w : world) :
  stages (assert_transform max_backtracks func w).2 = stages w /\
  lm (assert_transform max_backtracks func w).2 = lm w.
Proof. apply assert_transform_loop_frame. Qed.

Lemma update_settings_frame i bt w w1 :
  update_settings i bt w = Ok w1 ->
  stages w1 = stages w /\ trace w1 = trace w /\ stdout w1 = stdout w /\
  calls w1 = calls w.
Proof.
  unfold update_settings.
  destruct (0 <? i)%nat; [destruct bt; [|discriminate]|];
    intros [= <-]; repeat split.
Qed.

Lemma assert_update_transform_loop_frame func idx :
  forall bt w,
    stages (assert_update_transform_loop func idx bt w).2 = stages w /\
    lm (assert_update_transform_loop func idx bt w).2 = lm w.
Proof.
  induction idx as [|i idx IH]; intros bt w; [split; reflexivity|].
  simpl. destruct (update_settings i bt w) as [w1|e] eqn:Hset; [|split; reflexivity].
  destruct (update_settings_frame _ _ _ _ Hset) as [Hst _].
  unfold invoke. destruct (func w1) as [[v|e] tr]; simpl;
    [split; [exact Hst|reflexivity]|].
  destruct e; simpl; try (split; [exact Hst|reflexivity]).
  destruct (last_stage tr) as [p|];
    match goal with |- context [assert_update_transform_loop func idx ?b ?x] =>
      destruct (IH b x) as [Hs Hl] end;
    rewrite Hs, Hl; simpl; split; (exact Hst || reflexivity).
Qed.

(** X2.  Global perturbation changes the language model for the wrapped
    function only: however the run of [assert_update_transform] ends, every
    stage is as it was and the settings hold the language model they held
    before the run. *)
Theorem assert_update_transform_frame (max_backtracks : Z) (func : func_t)
    (w : world) :
  stages (assert_update_transform max_backtracks func w).2 = stages w /\
  lm (assert_update_transform max_backtracks func w).2 = lm w.
Proof. apply assert_update_transform_loop_frame. Qed.





(** ** The number of invocations *)

Lemma revert_extended_calls saved w : calls (revert_extended saved w) = calls w.
Proof.
  rewrite revert_extended_fold. revert w.
  induction saved as [|[p f] saved IH]; intros w; [reflexivity|].
  cbn [fold_left]. rewrite IH. reflexivity.
Qed.

Lemma feedback_decorator_calls max_backtracks func w :
  calls (assert_latest_feedback_transform max_backtracks func w).2 =
  calls (assert_latest_feedback_transform_loop func (range (max_backtracks + 1))
           (MkLocals None PyNone []) w).2.
Proof.
  unfold assert_latest_feedback_transform.
  destruct (assert_latest_feedback_transform_loop _ _ _ _) as [[[v|e] l] w'];
    simpl; [apply revert_extended_calls|reflexivity].
Qed.

(** X4.  Each of the four decorators invokes the wrapped function at most
    [max_backtracks + 1] times, and not at all when that number is not
    positive; this holds for every wrapped function and every way the run
    ends. *)
Theorem decorators_invocation_bound (max_backtracks : Z) (func : func_t)
    (w : world) :
  calls (assert_transform max_backtracks func w).2
    <= calls w + Z.to_nat (max_backtracks + 1) /\
  calls (assert_update_transform max_backtracks func w).2
    <= calls w + Z.to_nat (max_backtracks + 1) /\
  calls (assert_latest_transform max_backtracks func w).2
    <= calls w + Z.to_nat (max_backtracks + 1) /\
  calls (assert_latest_feedback_transform max_backtracks func w).2
    <= calls w + Z.to_nat (max_backtracks + 1).
Proof.
  destruct (retry_loops_bound func (range (max_backtracks + 1)))
    as [H1 [H2 [H3 H4]]].
  rewrite range_length in H1, H2, H3, H4.
  rewrite feedback_decorator_calls.
  split; [apply H1|]. split; [apply H2|]. split; [apply H3|apply H4].
Qed.

(** X5.  With a negative [max_backtracks] the loop has no iteration: each
    decorator returns [None] without invoking the wrapped function and
    without touching the state. *)
Theorem negative_max_backtracks (max_backtracks : Z) (func : func_t) (w : world) :
  (max_backtracks < 0)%Z ->
  assert_transform max_backtracks func w = (Ok PyNone, w) /\
  assert_update_transform max_backtracks func w = (Ok PyNone, w) /\
  assert_latest_transform max_backtracks func w = (Ok PyNone, w) /\
  assert_latest_feedback_transform max_backtracks func w = (Ok PyNone, w).
Proof.
  intros Hneg.
  unfold assert_transform, assert_update_transform, assert_latest_transform,
    assert_latest_feedback_transform, range.
  replace (Z.to_nat (max_backtracks + 1)) with 0 by lia.
  repeat split.
Qed.

Lemma negative_max_backtracks_witness :
  (-1 < 0)%Z /\
  assert_latest_feedback_transform (-1) failing_with_trace qa_world
    = (Ok PyNone, qa_world).
Proof.
  split; [lia|].
  exact (proj2 (proj2 (proj2
           (negative_max_backtracks (-1) failing_with_trace qa_world
              ltac:(lia))))).
Defined.

Lemma range_succ (n : Z) :
  (0 <= n)%Z -> range (n + 1) = 0 :: seq 1 (Z.to_nat n).
Proof.
  intros Hn. unfold range. replace (Z.to_nat (n + 1)) with (S (Z.to_nat n)) by lia.
  reflexivity.
Qed.

(** X6.  A wrapped function that returns on the first attempt makes every
    decorator transparent: the result is its result, it has been invoked
    once, nothing is printed, and neither the stages nor the settings
    change. *)
Theorem first_attempt_success (max_backtracks : Z) (func : func_t) (w : world)
    (v : pyval) (tr : trace_t) :
  (0 <= max_backtracks)%Z ->
  func w = (Ok v, tr) ->
  let w' := MkWorld (stages w) (lm w) tr (stdout w) (S (calls w)) in
  assert_transform max_backtracks func w = (Ok v, w') /\
  assert_update_transform max_backtracks func w = (Ok v, w') /\
  assert_latest_transform max_backtracks func w = (Ok v, w') /\
  assert_latest_feedback_transform max_backtracks func w = (Ok v, w').
Proof.
  intros Hmb Hf. cbv zeta.
  unfold assert_transform, assert_update_transform, assert_latest_transform,
    assert_latest_feedback_transform.
  rewrite (range_succ _ Hmb). simpl. unfold invoke. rewrite Hf. simpl.
  destruct w; repeat split.
Qed.

Lemma first_attempt_success_witness :
  (0 <= 2)%Z /\
  succeeding_pipeline qa_world = (Ok (PyStr "answer"), [TraceEntry 0 PyNone PyNone]) /\
  assert_latest_feedback_transform 2 succeeding_pipeline qa_world
    = (Ok (PyStr "answer"),
       MkWorld qa_heap [] [TraceEntry 0 PyNone PyNone] [] 1).
Proof.
  split; [lia|]. split; [reflexivity|].
  exact (proj2 (proj2 (proj2
           (first_attempt_success 2 succeeding_pipeline qa_world (PyStr "answer")
              [TraceEntry 0 PyNone PyNone] ltac:(lia) eq_refl)))).
Defined.




Lemma assert_update_transform_loop_bound_target func idx :
  always_fails_with_trace func ->
  forall p w,
    (assert_update_transform_loop func idx (Some p) w).1 = Ok PyNone /\
    calls (assert_update_transform_loop func idx (Some p) w).2
      = calls w + length idx.
Proof.
  intros Hfail. induction idx as [|i idx IH]; intros p w.
  - simpl. split; [reflexivity|lia].
  - simpl. destruct (update_settings i (Some p) w) as [w1|e] eqn:Hset.
    + destruct (update_settings_frame _ _ _ _ Hset) as [_ [_ [_ Hc]]].
      destruct (Hfail w1) as [msg [st [e [tr Hf]]]].
      unfold invoke. rewrite Hf. simpl.
      assert (Hlast : exists q, last_stage (e :: tr) = Some q).
      { unfold last_stage. destruct (last (e :: tr)) as [x|] eqn:Hl.
        - exists (te_stage x). reflexivity.
        - apply last_None in Hl. discriminate Hl. }
      destruct Hlast as [q Hq]. rewrite Hq.
      match goal with |- context [assert_update_transform_loop func idx (Some q) ?x] =>
        destruct (IH q x) as [Hr Hn] end.
      split; [exact Hr|]. rewrite Hn. simpl. lia.
    + unfold update_settings in Hset. destruct (0 <? i)%nat; discriminate Hset.
Qed.

(** X8.  [assert_update_transform] exhausts its attempts like the other
    decorators when the trace is not empty at the failures: the wrapped
    function is invoked exactly [max_backtracks + 1] times and the result
    is [None]. *)
Theorem update_transform_exhaustion_with_trace (max_backtracks : Z)
    (func : func_t) (w : world) :
  (0 <= max_backtracks)%Z ->
  always_fails_with_trace func ->
  (assert_update_transform max_backtracks func w).1 = Ok PyNone /\
  calls (assert_update_transform max_backtracks func w).2
    = calls w + Z.to_nat (max_backtracks + 1).
Proof.
  intros Hmb Hfail. unfold assert_update_transform.
  rewrite (range_succ _ Hmb). simpl.
  destruct (Hfail w) as [msg [st [e [tr Hf]]]].
  unfold invoke. rewrite Hf. simpl.
  assert (Hlast : exists q, last_stage (e :: tr) = Some q).
  { unfold last_stage. destruct (last (e :: tr)) as [x|] eqn:Hl.
    - exists (te_stage x). reflexivity.
    - apply last_None in Hl. discriminate Hl. }
  destruct Hlast as [q Hq]. rewrite Hq.
  match goal with |- context [assert_update_transform_loop func ?i (Some q) ?x] =>
    destruct (assert_update_transform_loop_bound_target func i Hfail q x)
      as [Hr Hn] end.
  split; [exact Hr|]. rewrite Hn, length_seq. simpl. lia.
Qed.

Lemma failing_with_trace_always_fails_with_trace :
  always_fails_with_trace failing_with_trace.
Proof. intros w. do 4 eexists. reflexivity. Qed.

Lemma update_transform_exhaustion_with_trace_witness :
  (0 <= 2)%Z /\
  always_fails_with_trace failing_with_trace /\
  (assert_update_transform 2 failing_with_trace warm_world).1 = Ok PyNone /\
  calls (assert_update_transform 2 failing_with_trace warm_world).2 = 3.
Proof.
  split; [lia|]. split; [exact failing_with_trace_always_fails_with_trace|].
  exact (update_transform_exhaustion_with_trace 2 failing_with_trace warm_world
           ltac:(lia) failing_with_trace_always_fails_with_trace).
Defined.

Lemma update_transform_unbound_witness :
  (1 <= 3)%Z /\
  failing_without_trace warm_world
    = (Raise (DSPyAssertionError (PyStr "wrong") []), []) /\
  (assert_update_transform 3 failing_without_trace warm_world).1
    = Raise (UnboundLocalError "backtrack_to") /\
  calls (assert_update_transform 3 failing_without_trace warm_world).2 = 1.
Proof.
  split; [lia|]. split; [reflexivity|].
  exact (update_transform_unbound 3 failing_without_trace warm_world
           (PyStr "wrong") [] ltac:(lia) eq_refl).
Defined.

(** ** The wrapper of an entry point *)

Lemma dict_get_setdefault (k a : string) (v : pyval) (kw : list (string * pyval)) :
  dict_get k (dict_setdefault a v kw) =
  match dict_get k kw with
  | Some x => Some x
  | None => if decide (a = k) then Some v else None
  end.
Proof.
  unfold dict_setdefault. destruct (dict_get a kw) as [x|] eqn:Ha.
  - destruct (dict_get k kw) eqn:Hk; [reflexivity|].
    destruct (decide (a = k)) as [->|]; [congruence|reflexivity].
  - rewrite dict_get_app. simpl. destruct (dict_get k kw); reflexivity.
Qed.

Lemma dict_get_apply_defaults (default_args kw : list (string * pyval)) (k : string) :
  dict_get k (apply_defaults default_args kw) =
  match dict_get k kw with
  | Some x => Some x
  | None => dict_get k default_args
  end.
Proof.
  unfold apply_defaults. revert kw.
  induction default_args as [|[a v] ds IH]; intros kw; simpl.
  - destruct (dict_get k kw); reflexivity.
  - rewrite IH, dict_get_setdefault.
    destruct (dict_get k kw); [reflexivity|].
    destruct (decide (a = k)); reflexivity.
Qed.

Lemma apply_defaults_extends (default_args kw : list (string * pyval)) :
  exists extra, apply_defaults default_args kw = kw ++ extra.
Proof.
  unfold apply_defaults. revert kw.
  induction default_args as [|[a v] ds IH]; intros kw; simpl.
  - exists []. symmetry. apply app_nil_r.
  - destruct (IH (dict_setdefault a v kw)) as [extra Hextra]. rewrite Hextra.
    unfold dict_setdefault. destruct (dict_get a kw).
    + exists extra. reflexivity.
    + exists ((a, v) :: extra). rewrite <- app_assoc. reflexivity.
Qed.

(** X9.  [_wrap_forward_with_set_fields] installs an entry point that
    calls the former one with the keyword arguments of the caller followed
    by the defaults the caller left out: an argument the caller passes is
    never replaced, a missing one gets the first default of its name, and no
    other stage is affected. *)
Theorem wrap_forward_defaults (predictor : nat)
    (default_args : list (string * pyval)) (h : heap) (R : Type)
    (base : nat -> list (string * pyval) -> R) (kw : list (string * pyval)) :
  let h' := _wrap_forward_with_set_fields predictor default_args h in
  call_forward base (forward (h' predictor)) kw
    = call_forward base (forward (h predictor)) (apply_defaults default_args kw) /\
  (forall k,
     dict_get k (apply_defaults default_args kw) =
     match dict_get k kw with
     | Some x => Some x
     | None => dict_get k default_args
     end) /\
  (exists extra, apply_defaults default_args kw = kw ++ extra) /\
  config (h' predictor) = config (h predictor) /\
  extended_signature (h' predictor) = extended_signature (h predictor) /\
  forall q, q <> predictor -> h' q = h q.
Proof.
  cbv zeta. unfold _wrap_forward_with_set_fields. rewrite heap_update_eq.
  split; [reflexivity|].
  split; [intros k; apply dict_get_apply_defaults|].
  split; [apply apply_defaults_extends|].
  split; [reflexivity|]. split; [reflexivity|].
  intros q Hne. apply heap_update_ne, Hne.
Qed.

(** ** Extending and reverting a contract *)

Lemma extend_kwargs_fresh_field (name : string) (fld : field)
    (old : list (string * field)) :
  List.NoDup (dict_keys old) -> dict_get name old = None ->
  extend_kwargs [(name, fld)] old =
  List.filter (fun kv => is_InputField kv.2) old
    ++ [(name, fld)]
    ++ List.filter (fun kv => is_Type_or_OutputField kv.2) old.
Proof.
  intros Hnd Hfresh. unfold extend_kwargs.
  assert (Hin : dict_get name (List.filter (fun kv => is_InputField kv.2) old) = None).
  { rewrite (dict_get_filter is_InputField) by exact Hnd. rewrite Hfresh. reflexivity. }
  unfold dict_update at 2. simpl. rewrite (dict_set_fresh _ _ _ Hin).
  rewrite dict_update_fresh.
  - rewrite <- app_assoc. reflexivity.
  - apply dict_keys_filter_NoDup, Hnd.
  - intros k Hk. rewrite dict_get_app.
    rewrite (dict_get_filter is_InputField) by exact Hnd.
    destruct (dict_get k (List.filter (fun kv => is_Type_or_OutputField kv.2) old))
      as [v|] eqn:Hget; [|apply dict_get_None_iff in Hget; contradiction].
    rewrite (dict_get_filter is_Type_or_OutputField) in Hget by exact Hnd.
    destruct (dict_get k old) as [v0|] eqn:Hk0; [|discriminate].
    destruct (is_Type_or_OutputField v0) eqn:Hv0; [|discriminate].
    rewrite is_InputField_negb, Hv0. simpl.
    destruct (decide (name = k)) as [<-|]; [congruence|reflexivity].
Qed.

(** X10.  Extending the contract of a stage with one field of a new name
    and reverting that name gives the old fields with the input fields
    moved before the others, each group in its old order; instructions,
    configuration and entry point are kept, and no other stage changes.  A
    stage whose input fields already stand first is therefore exactly as
    before. *)
Theorem revert_after_extend (predictor : nat) (name : string) (fld : field)
    (h : heap) :
  let old := kwargs (extended_signature (h predictor)) in
  let h' :=
    _revert_predictor_signature predictor [name]
      (_extend_predictor_signature predictor [(name, fld)] h) in
  List.NoDup (dict_keys old) ->
  dict_get name old = None ->
  kwargs (extended_signature (h' predictor))
    = List.filter (fun kv => is_InputField kv.2) old
        ++ List.filter (fun kv => is_Type_or_OutputField kv.2) old /\
  instructions (extended_signature (h' predictor))
    = instructions (extended_signature (h predictor)) /\
  config (h' predictor) = config (h predictor) /\
  forward (h' predictor) = forward (h predictor) /\
  (forall q, q <> predictor -> h' q = h q) /\
  (old = List.filter (fun kv => is_InputField kv.2) old
           ++ List.filter (fun kv => is_Type_or_OutputField kv.2) old ->
   h' predictor = h predictor).
Proof.
  cbv zeta. intros Hnd Hfresh.
  assert (Hkw : kwargs (extended_signature
                  (_revert_predictor_signature predictor [name]
                     (_extend_predictor_signature predictor [(name, fld)] h)
                     predictor))
                = List.filter (fun kv => is_InputField kv.2)
                    (kwargs (extended_signature (h predictor)))
                  ++ List.filter (fun kv => is_Type_or_OutputField kv.2)
                       (kwargs (extended_signature (h predictor)))).
  { rewrite revert_signature_at, extend_signature_at. simpl.
    rewrite (extend_kwargs_fresh_field _ _ _ Hnd Hfresh).
    unfold dict_pops. cbn [fold_left]. unfold dict_pop. rewrite !filter_app.
    assert (Hin : dict_get name
                    (List.filter (fun kv => is_InputField kv.2)
                       (kwargs (extended_signature (h predictor)))) = None).
    { rewrite (dict_get_filter is_InputField) by exact Hnd.
      rewrite Hfresh. reflexivity. }
    assert (Hout : dict_get name
                     (List.filter (fun kv => is_Type_or_OutputField kv.2)
                        (kwargs (extended_signature (h predictor)))) = None).
    { rewrite (dict_get_filter is_Type_or_OutputField) by exact Hnd.
      rewrite Hfresh. reflexivity. }
    pose proof (dict_pop_absent _ _ Hin) as Hpin.
    pose proof (dict_pop_absent _ _ Hout) as Hpout.
    unfold dict_pop in Hpin, Hpout. rewrite Hpin, Hpout.
    rewrite filter_cons, filter_nil. simpl.
    destruct (decide (name <> name)); [contradiction|reflexivity]. }
  split; [exact Hkw|].
  split; [rewrite revert_signature_at, extend_signature_at; reflexivity|].
  split; [rewrite revert_signature_at, extend_signature_at; reflexivity|].
  split; [rewrite revert_signature_at, extend_signature_at; reflexivity|].
  split.
  - intros q Hne. rewrite revert_signature_other by exact Hne.
    apply extend_signature_other, Hne.
  - intros Hshape.
    assert (Hi : instructions (extended_signature
                   (_revert_predictor_signature predictor [name]
                      (_extend_predictor_signature predictor [(name, fld)] h)
                      predictor))
                 = instructions (extended_signature (h predictor)))
      by (rewrite revert_signature_at, extend_signature_at; reflexivity).
    assert (Hc : config (_revert_predictor_signature predictor [name]
                   (_extend_predictor_signature predictor [(name, fld)] h) predictor)
                 = config (h predictor))
      by (rewrite revert_signature_at, extend_signature_at; reflexivity).
    assert (Hfw : forward (_revert_predictor_signature predictor [name]
                    (_extend_predictor_signature predictor [(name, fld)] h) predictor)
                  = forward (h predictor))
      by (rewrite revert_signature_at, extend_signature_at; reflexivity).
    rewrite <- Hshape in Hkw.
    destruct (_revert_predictor_signature predictor [name] _ predictor)
      as [c [ins kws] fw].
    destruct (h predictor) as [c0 [ins0 kws0] fw0]. simpl in *.
    congruence.
Qed.

Lemma revert_after_extend_witness :
  List.NoDup (dict_keys (kwargs (extended_signature (qa_heap 0)))) /\
  dict_get "hint" (kwargs (extended_signature (qa_heap 0))) = None /\
  _revert_predictor_signature 0 ["hint"]
    (_extend_predictor_signature 0
       [("hint", Field InputField "Hint:" "a hint" None)] qa_heap) 0
    = qa_heap 0.
Proof.
  pose proof (proj1 qa_signature_canonical) as Hnd.
  split; [exact Hnd|]. split; [reflexivity|].
  exact (proj2 (proj2 (proj2 (proj2 (proj2
           (revert_after_extend 0 "hint" (Field InputField "Hint:" "a hint" None)
              qa_heap Hnd eq_refl)))))
           eq_refl).
Defined.

(** ** The entry point after a run of assert_latest_feedback_transform *)

Lemma callable_size_wrap_all msgs f :
  callable_size (wrap_all msgs f) = length msgs + callable_size f.
Proof. induction msgs as [|m msgs IH]; simpl; [reflexivity|]. rewrite IH. reflexivity. Qed.

Lemma wrap_all_fixed msgs f : wrap_all msgs f = f <-> msgs = [].
Proof.
  split; [|intros ->; reflexivity].
  intros Heq. apply (f_equal callable_size) in Heq.
  rewrite callable_size_wrap_all in Heq. destruct msgs; [reflexivity|simpl in Heq; lia].
Qed.

Lemma entry_inv_init h0 : entry_inv h0 [] [] h0.
Proof. intros p. exists []. repeat split. Qed.

Lemma entry_inv_print h0 out extra saved h :
  (forall p x, In x extra -> is_rewinding p x = false) ->
  entry_inv h0 out saved h -> entry_inv h0 (out ++ extra) saved h.
Proof.
  intros Hextra Hinv p. destruct (Hinv p) as [msgs [Hlen Hrest]].
  exists msgs. split; [|exact Hrest].
  rewrite rewinds_app, (rewinds_none p extra); [lia|].
  intros x Hx. apply (Hextra p x Hx).
Qed.

Lemma entry_inv_rewind h0 out saved h p m :
  entry_inv h0 out saved h ->
  entry_inv h0 (out ++ [PrintRewinding p])
    (dict_set p (forward (h p)) saved)
    (_wrap_forward_with_set_fields p [("feedback", m)]
       (_extend_predictor_signature p [("feedback", feedback)] h)).
Proof.
  intros Hinv q. destruct (Hinv q) as [msgs [Hlen [Hfw Hsaved]]].
  rewrite rewinds_snoc. destruct (decide (p = q)) as [->|Hne].
  - exists (m :: msgs). rewrite wrap_extend_at. simpl.
    split; [lia|]. split; [rewrite Hfw; reflexivity|].
    rewrite dict_get_set_eq, Hfw. reflexivity.
  - exists msgs. rewrite wrap_extend_other by congruence.
    rewrite dict_get_set_ne by congruence.
    split; [lia|]. split; assumption.
Qed.

Lemma entry_loop_inv func h0 s0 idx :
  forall l w out r l' w',
    stdout w = s0 ++ out ->
    entry_inv h0 out (extended_predictors_to_original_forward l) (stages w) ->
    assert_latest_feedback_transform_loop func idx l w = (r, l', w') ->
    exists out',
      stdout w' = s0 ++ out' /\
      entry_inv h0 out' (extended_predictors_to_original_forward l') (stages w').
Proof.
  assert (Hrewind : forall i l w out,
            stdout w = s0 ++ out ->
            entry_inv h0 out (extended_predictors_to_original_forward l) (stages w) ->
            exists out',
              stdout (feedback_rewind i l w).2 = s0 ++ out' /\
              entry_inv h0 out'
                (extended_predictors_to_original_forward (feedback_rewind i l w).1)
                (stages (feedback_rewind i l w).2)).
  { intros i l w out Hout Hinv.
    destruct (backtrack_to l) as [p|] eqn:Hbt.
    - destruct (Nat.eq_dec i 0) as [->|Hi].
      + rewrite feedback_rewind_skip by (right; reflexivity).
        exists out. split; assumption.
      + rewrite (feedback_rewind_Some i l w p Hbt) by lia. simpl.
        exists (out ++ [PrintRewinding p]). split.
        * rewrite Hout, <- app_assoc. reflexivity.
        * apply entry_inv_rewind, Hinv.
    - rewrite feedback_rewind_skip by (left; exact Hbt).
      exists out. split; assumption. }
  induction idx as [|i idx IH]; intros l w out r l' w' Hout Hinv Hloop.
  - injection Hloop as <- <- <-. exists out. split; assumption.
  - destruct (Hrewind i l w out Hout Hinv) as [out1 [Hout1 Hinv1]].
    destruct (func (feedback_rewind i l w).2) as [[v|e] tr] eqn:Hf.
    + rewrite (feedback_loop_return _ _ _ _ _ _ _ Hf) in Hloop.
      injection Hloop as <- <- <-. exists out1. split; assumption.
    + destruct (is_DSPyAssertionError e) eqn:He.
      * destruct e as [msg st| | |]; try discriminate He.
        rewrite (feedback_loop_fail _ _ _ _ _ _ _ _ Hf) in Hloop.
        pose proof (after_failure_facts msg tr (feedback_rewind i l w).1
                      (feedback_rewind i l w).2) as Hfacts.
        destruct (after_failure msg tr _ _) as [l1 w1]. simpl in Hloop.
        destruct Hfacts as [_ [_ [Hsaved [Hst [_ [extra [Hstd Hextra]]]]]]].
        apply (IH l1 w1 (out1 ++ extra) r l' w'); [| |exact Hloop].
        -- rewrite Hstd, Hout1, <- app_assoc. reflexivity.
        -- rewrite Hsaved, Hst. apply entry_inv_print; [|exact Hinv1].
           intros p x Hx. destruct (Hextra x Hx) as [-> | ->]; reflexivity.
      * rewrite (feedback_loop_raise _ _ _ _ _ _ _ Hf He) in Hloop.
        injection Hloop as <- <- <-. exists out1. split; assumption.
Qed.

(** X11.  The entry point a run of [assert_latest_feedback_transform]
    leaves behind.  Let [out] be the lines the run prints.  When the run
    returns, the entry point of every stage is the one before the run under
    as many feedback wrappers as the stage was mutated, less one: it is the
    entry point before the run exactly for the stages mutated at most once.
    When the run raises, every mutation has left its wrapper. *)
Theorem entry_point_after_run (max_backtracks : Z) (func : func_t) (w : world) :
  let '(r, w') := assert_latest_feedback_transform max_backtracks func w in
  exists out,
    stdout w' = stdout w ++ out /\
    forall p, exists msgs,
      forward (stages w' p) = wrap_all msgs (forward (stages w p)) /\
      match r with
      | Ok _ =>
          length msgs = rewinds p out - 1 /\
          (forward (stages w' p) = forward (stages w p) <-> rewinds p out <= 1)
      | Raise _ => length msgs = rewinds p out
      end.
Proof.
  unfold assert_latest_feedback_transform.
  destruct (assert_latest_feedback_transform_loop func (range (max_backtracks + 1))
              (MkLocals None PyNone []) w) as [[r l'] wl] eqn:Hloop.
  destruct (feedback_loop_inv func (stages w) (stdout w) _
              (MkLocals None PyNone []) w [] r l' wl
              (eq_sym (app_nil_r _)) (feedback_inv_init _) Hloop)
    as [out [Hout [[Hnd _ _ _ _] _]]].
  destruct (entry_loop_inv func (stages w) (stdout w) _
              (MkLocals None PyNone []) w [] r l' wl
              (eq_sym (app_nil_r _)) (entry_inv_init _) Hloop)
    as [out2 [Hout2 Hentry]].
  assert (out2 = out) as -> by (apply (app_inv_head (stdout w)); congruence).
  destruct r as [v|e].
  - set (saved := extended_predictors_to_original_forward l') in *.
    exists (out ++ map (fun item => PrintReverting item.1) saved).
    split; [rewrite revert_extended_stdout, Hout, <- app_assoc; reflexivity|].
    intros p. rewrite rewinds_app, rewinds_saved, Nat.add_0_r.
    rewrite (revert_extended_stages saved wl p Hnd).
    destruct (Hentry p) as [msgs [Hlen [Hfw Hsaved]]]. rewrite Hsaved.
    destruct msgs as [|m msgs].
    + exists []. simpl in *. rewrite Hfw. split; [reflexivity|].
      split; [lia|]. split; [intros _; lia|reflexivity].
    + exists msgs. simpl in *. split; [reflexivity|]. split; [lia|].
      rewrite wrap_all_fixed. split; [intros ->; simpl in Hlen; lia|].
      intros Hle. destruct msgs; [reflexivity|simpl in Hlen; lia].
  - exists out. split; [exact Hout|].
    intros p. destruct (Hentry p) as [msgs [Hlen [Hfw _]]].
    exists msgs. split; assumption.
Qed.

(** ** The settings of a retry under assert_update_transform *)

Lemma last_stage_cons e tr : exists p, last_stage (e :: tr) = Some p.
Proof.
  unfold last_stage. destruct (last (e :: tr)) as [x|] eqn:Hl.
  - exists (te_stage x). reflexivity.
  - apply last_None in Hl. discriminate Hl.
Qed.

(** X12.  When an attempt under [assert_update_transform] fails its
    assertion with a trace that is not empty, the loop goes on, and the
    attempt [j > 0] that follows runs with a copy of the language model of
    the settings in which the temperature is [0.71 + 0.002 * j] and every
    other parameter is as in the settings.  The override starts from the
    settings each time, it is the same whichever stage the trace ends with,
    and no stage is changed. *)
Theorem update_transform_next_attempt (func : func_t) (i j : nat)
    (idx : list nat) (bt : option nat) (w w1 : world) (msg : pyval)
    (st : trace_t) (e : trace_entry) (tr : trace_t) :
  update_settings i bt w = Ok w1 ->
  func w1 = (Raise (DSPyAssertionError msg st), e :: tr) ->
  (0 < j)%nat ->
  exists p w2 w3,
    last_stage (e :: tr) = Some p /\
    assert_update_transform_loop func (i :: j :: idx) bt w
      = assert_update_transform_loop func (j :: idx) (Some p) w2 /\
    lm w2 = lm w /\
    stages w2 = stages w /\
    (forall q, update_settings j (Some q) w2 = Ok w3) /\
    stages w3 = stages w /\
    dict_get "temperature" (lm w3)
      = Some (PyFloat (0.71 + 0.002 * float_of_index j)%float) /\
    forall k, k <> "temperature" -> dict_get k (lm w3) = dict_get k (lm w).
Proof.
  intros Hset Hf Hj.
  destruct (last_stage_cons e tr) as [p Hp].
  destruct (update_settings_frame _ _ _ _ Hset) as [Hst _].
  pose (w2 := print (PrintMsg msg)
                (set_lm (lm w)
                   (MkWorld (stages w1) (lm w1) (e :: tr) (stdout w1) (S (calls w1))))).
  exists p, w2,
    (set_lm (lm_copy (lm w2)
               [("temperature", PyFloat (0.71 + 0.002 * float_of_index j)%float)]) w2).
  split; [exact Hp|]. split.
  { change (assert_update_transform_loop func (i :: j :: idx) bt w)
      with (match update_settings i bt w with
            | Raise e => (Raise e, w)
            | Ok w1 =>
                let '(r, w1) := invoke func w1 in
                let w := set_lm (lm w) w1 in
                match r with
                | Raise (DSPyAssertionError msg _) =>
                    let w := print (PrintMsg msg) w in
                    match last_stage (trace w) with
                    | Some p => assert_update_transform_loop func (j :: idx) (Some p) w
                    | None =>
                        let w := print PrintUnreachable w in
                        assert_update_transform_loop func (j :: idx) bt w
                    end
                | _ => (r, w)
                end
            end).
    rewrite Hset. unfold invoke. rewrite Hf. cbv zeta.
    change (trace (print (PrintMsg msg)
                     (set_lm (lm w)
                        (MkWorld (stages w1) (lm w1) (e :: tr) (stdout w1)
                           (S (calls w1))))))
      with (e :: tr).
    rewrite Hp. reflexivity. }
  split; [reflexivity|]. split; [exact Hst|]. split.
  { intros q. unfold update_settings.
    destruct (0 <? j)%nat eqn:Hlt; [reflexivity|apply Nat.ltb_ge in Hlt; lia]. }
  split; [exact Hst|]. simpl. split.
  - apply dict_get_set_eq.
  - intros k Hk. apply dict_get_set_ne, Hk.
Qed.

Lemma update_transform_next_attempt_witness :
  exists p w2 w3,
    last_stage [TraceEntry 0 PyNone PyNone] = Some p /\
    assert_update_transform_loop failing_with_trace [0; 1; 2] None warm_world
      = assert_update_transform_loop failing_with_trace [1; 2] (Some p) w2 /\
    dict_get "temperature" (lm w3)
      = Some (PyFloat (0.71 + 0.002 * float_of_index 1)%float) /\
    dict_get "max_tokens" (lm w3) = Some (PyInt 150).
Proof.
  destruct (update_transform_next_attempt failing_with_trace 0 1 [2] None
              warm_world warm_world (PyStr "wrong") [TraceEntry 0 PyNone PyNone]
              (TraceEntry 0 PyNone PyNone) [] eq_refl eq_refl ltac:(lia))
    as [p [w2 [w3 [Hp [Hloop [_ [_ [_ [_ [Ht Hk]]]]]]]]]].
  exists p, w2, w3. split; [exact Hp|]. split; [exact Hloop|].
  split; [exact Ht|]. rewrite Hk by discriminate. reflexivity.
Defined.

(** ** The target of assert_latest_transform along a run *)

Lemma blamed_by_snoc hist tr :
  blamed_by (hist ++ [tr]) =
  match last_stage tr with Some p => Some p | None => blamed_by hist end.
Proof. unfold blamed_by. rewrite fold_left_app. reflexivity. Qed.

Lemma last_stage_None tr : last_stage tr = None <-> tr = [].
Proof.
  unfold last_stage. split.
  - intros Hl. destruct (last tr) eqn:Hlast; [discriminate|].
    apply last_None in Hlast. exact Hlast.
  - intros ->. reflexivity.
Qed.

Lemma blamed_by_None hist :
  blamed_by hist = None <-> (forall tr, In tr hist -> tr = []).
Proof.
  induction hist as [|tr hist IH] using rev_ind.
  - split; [intros _ tr []|reflexivity].
  - rewrite blamed_by_snoc. split.
    + intros Hb tr' Hin. destruct (last_stage tr) eqn:Hl; [discriminate|].
      apply in_app_or in Hin as [Hin|[<-|[]]].
      * apply IH; assumption.
      * apply last_stage_None, Hl.
    + intros Hall.
      assert (Htr : tr = []) by (apply Hall, in_or_app; right; left; reflexivity).
      rewrite (proj2 (last_stage_None tr) Htr). apply IH.
      intros tr' Hin. apply Hall, in_or_app. left. exact Hin.
Qed.

Lemma latest_head_step func k w bt wk hist :
  latest_head func (S k) w = Some (bt, wk, hist) ->
  exists bt0 w0 hist0 msg st tr,
    latest_head func k w = Some (bt0, w0, hist0) /\
    func (latest_rewind k bt0 w0) = (Raise (DSPyAssertionError msg st), tr) /\
    hist = hist0 ++ [tr] /\
    bt = match last_stage tr with Some p => Some p | None => bt0 end /\
    forall idx,
      assert_latest_transform_loop func (k :: idx) bt0 w0
        = assert_latest_transform_loop func idx bt wk.
Proof.
  simpl. destruct (latest_head func k w) as [[[bt0 w0] hist0]|]; [|discriminate].
  unfold invoke. destruct (func (latest_rewind k bt0 w0)) as [[v|e] tr] eqn:Hf;
    [discriminate|].
  destruct e as [msg st| | |]; try discriminate.
  unfold blame. simpl. intros Hhead.
  exists bt0, w0, hist0, msg, st, tr. split; [reflexivity|]. split; [exact Hf|].
  destruct (last_stage tr) as [p|] eqn:Hl; cbv beta iota zeta in Hhead;
    injection Hhead as <- <- <-;
    (split; [reflexivity|]); (split; [reflexivity|]);
    intros idx; cbn [assert_latest_transform_loop]; unfold invoke; rewrite Hf;
    unfold blame; cbn [trace print]; rewrite Hl; reflexivity.
Qed.

Lemma latest_head_facts func w k :
  forall bt wk hist,
    latest_head func k w = Some (bt, wk, hist) ->
    length hist = k /\ bt = blamed_by hist.
Proof.
  induction k as [|k IH]; intros bt wk hist Hhead.
  - injection Hhead as <- <- <-. split; reflexivity.
  - destruct (latest_head_step _ _ _ _ _ _ Hhead)
      as [bt0 [w0 [hist0 [msg [st [tr [Hprev [_ [-> [-> _]]]]]]]]]].
    destruct (IH _ _ _ Hprev) as [Hlen ->].
    split; [rewrite length_app; simpl; lia|].
    symmetry. apply blamed_by_snoc.
Qed.

Lemma latest_head_loop func w n k :
  k <= n ->
  forall bt wk hist,
    latest_head func k w = Some (bt, wk, hist) ->
    assert_latest_transform_loop func (seq 0 n) None w
      = assert_latest_transform_loop func (seq k (n - k)) bt wk.
Proof.
  induction k as [|k IH]; intros Hk bt wk hist Hhead.
  - injection Hhead as <- <- <-. rewrite Nat.sub_0_r. reflexivity.
  - destruct (latest_head_step _ _ _ _ _ _ Hhead)
      as [bt0 [w0 [hist0 [msg [st [tr [Hprev [_ [_ [_ Hloop]]]]]]]]]].
    rewrite (IH ltac:(lia) _ _ _ Hprev).
    replace (n - k) with (S (n - S k)) by lia.
    cbn [seq]. apply Hloop.
Qed.

(** C5, as the code has it.  Let a run of [assert_latest_transform] arrive
    at attempt [k] after [k] failed attempts that left the traces [hist].
    The target [backtrack_to] is then the stage of the last entry of the
    most recent of these traces that is not empty: the stage blamed by the
    failure just before when its trace is not empty, the former target
    when that trace is empty, and no stage exactly when all the traces are
    empty.  Attempt [k] runs after the statements before [try]: without a
    target they change no stage; with a target they set its temperature to
    [0.7 + 0.001 * k] and leave its other parameters, its contract, its
    entry point and every other stage as they are. *)
Theorem latest_target_follows_history (max_backtracks : Z) (func : func_t)
    (w : world) (k : nat) (bt : option nat) (wk : world) (hist : list trace_t) :
  k <= Z.to_nat (max_backtracks + 1) ->
  latest_head func k w = Some (bt, wk, hist) ->
  assert_latest_transform max_backtracks func w
    = assert_latest_transform_loop func
        (seq k (Z.to_nat (max_backtracks + 1) - k)) bt wk /\
  length hist = k /\
  bt = blamed_by hist /\
  (forall hist' tr p,
     hist = hist' ++ [tr] -> last_stage tr = Some p -> bt = Some p) /\
  (forall hist' tr,
     hist = hist' ++ [tr] -> tr = [] -> bt = blamed_by hist') /\
  (bt = None <-> forall tr, In tr hist -> tr = []) /\
  let w' := latest_rewind k bt wk in
  (bt = None -> stages w' = stages wk) /\
  (forall p, bt = Some p ->
     (0 < k)%nat /\
     dict_get "temperature" (config (stages w' p)) = Some (latest_temperature k) /\
     (forall key, key <> "temperature" ->
        dict_get key (config (stages w' p)) = dict_get key (config (stages wk p))) /\
     extended_signature (stages w' p) = extended_signature (stages wk p) /\
     forward (stages w' p) = forward (stages wk p) /\
     forall q, q <> p -> stages w' q = stages wk q).
Proof.
  intros Hk Hhead.
  destruct (latest_head_facts _ _ _ _ _ _ Hhead) as [Hlen Hbt].
  split; [exact (latest_head_loop func w _ k Hk _ _ _ Hhead)|].
  split; [exact Hlen|]. split; [exact Hbt|]. split.
  { intros hist' tr p -> Hl. rewrite Hbt, blamed_by_snoc, Hl. reflexivity. }
  split.
  { intros hist' tr -> ->. rewrite Hbt, blamed_by_snoc. reflexivity. }
  split; [rewrite Hbt; apply blamed_by_None|].
  cbv zeta. split; [intros ->; reflexivity|].
  intros p ->.
  assert (Hpos : (0 < k)%nat).
  { destruct hist; [discriminate Hbt|]. simpl in Hlen. lia. }
  split; [exact Hpos|].
  pose proof (latest_rewind_stages_Some k p wk Hpos) as Hq.
  assert (Hpp : stages (latest_rewind k (Some p) wk) p =
                set_config (dict_set "temperature" (latest_temperature k)
                              (config (stages wk p))) (stages wk p)).
  { rewrite (Hq p). destruct (decide (p = p)); [reflexivity|contradiction]. }
  rewrite Hpp.
  split; [apply dict_get_set_eq|].
  split; [intros key Hkey; apply dict_get_set_ne, Hkey|].
  split; [reflexivity|]. split; [reflexivity|].
  intros q Hne. rewrite (Hq q). destruct (decide (q = p)); [contradiction|reflexivity].
Qed.

Lemma latest_target_follows_history_witness :
  exists bt wk hist,
    2 <= Z.to_nat (2 + 1) /\
    latest_head flaky_latest 2 qa_world = Some (bt, wk, hist) /\
    hist = [[TraceEntry 0 PyNone PyNone]; []] /\
    bt = Some 0 /\
    assert_latest_transform 2 flaky_latest qa_world
      = assert_latest_transform_loop flaky_latest [2] bt wk /\
    dict_get "temperature" (config (stages (latest_rewind 2 bt wk) 0))
      = Some (latest_temperature 2).
Proof.
  assert (Hhead : exists wk,
            latest_head flaky_latest 2 qa_world
              = Some (Some 0, wk, [[TraceEntry 0 PyNone PyNone]; []])).
  { eexists. vm_compute. reflexivity. }
  destruct Hhead as [wk Hhead].
  assert (Hk : 2 <= Z.to_nat (2 + 1)) by (vm_compute; lia).
  destruct (latest_target_follows_history 2 flaky_latest qa_world 2 (Some 0) wk
              [[TraceEntry 0 PyNone PyNone]; []] Hk Hhead)
    as [Hrun [_ [_ [_ [_ [_ [_ Hsome]]]]]]].
  exists (Some 0), wk, [[TraceEntry 0 PyNone PyNone]; []].
  split; [exact Hk|]. split; [exact Hhead|]. split; [reflexivity|].
  split; [reflexivity|]. split; [exact Hrun|].
  exact (proj1 (proj2 (Hsome 0 eq_refl))).
Defined.
